(** * Stock Market Finance dashboard (app.py): client-side orchestration

    A shallow embedding of [app.py]: the API Gateway [fetch_api], the five
    screen handlers and the chart data pipeline, followed by the properties
    of the client/backend contract.

    Conventions of the embedding.
    - A decoded JSON body is a value of [json]; Python [None] is [JNull],
      a Python dict is an association list in insertion order.
    - Python code that may raise returns a [res]; an exception is an [exn]
      (an instance of a subclass of [Exception]) carrying its class and
      the text [str(e)].
    - A screen handler is a computation in the monad [H]: it reads the
      backend (one answer per HTTP call), appends to the trace of HTTP
      requests and of toolkit calls, and ends by returning, by raising or
      by asking for a rerun.
    - What the libraries compute outside the fragment written out here
      (text of a float, Unicode case mapping, date parsing, the types
      pandas gives the columns of a frame, the order its unstable sort
      gives rows of equal key, ...) is a member of the class
      [PyRuntime]; every theorem holds for all of its instances. *)

From Stdlib Require Import ZArith List String Ascii Bool Lia.
From Stdlib Require Import Permutation Sorted SpecFloat DecimalString.
Import ListNotations.
Open Scope string_scope.

Set Implicit Arguments.

(** ** Decoded JSON values *)

#[local] Unset Elimination Schemes.
Inductive json : Type :=
| JNull
| JBool (b : bool)
| JInt (z : Z)
| JFloat (f : spec_float)
| JStr (s : string)
| JList (l : list json)
| JDict (d : list (string * json)).
#[local] Set Elimination Schemes.

(** [type(v).__name__] *)
Definition type_name (v : json) : string :=
  match v with
  | JNull => "NoneType"
  | JBool _ => "bool"
  | JInt _ => "int"
  | JFloat _ => "float"
  | JStr _ => "str"
  | JList _ => "list"
  | JDict _ => "dict"
  end.

(** [bool(v)]: the truth value Python gives to [v]. *)
Definition truthy (v : json) : bool :=
  match v with
  | JNull => false
  | JBool b => b
  | JInt z => negb (z =? 0)%Z
  | JFloat (S754_zero _) => false
  | JFloat _ => true
  | JStr s => negb (s =? "")
  | JList l => match l with [] => false | _ => true end
  | JDict d => match d with [] => false | _ => true end
  end.

Definition is_list (v : json) : bool :=
  match v with JList _ => true | _ => false end.

(** ** Python dicts as association lists *)

Section Dict.
Variable V : Type.

Fixpoint lookup (k : string) (d : list (string * V)) : option V :=
  match d with
  | [] => None
  | (k', v) :: d' => if k =? k' then Some v else lookup k d'
  end.

(** [d[k] = v]: an existing key keeps its place, a new one goes last. *)
Fixpoint dict_set (k : string) (v : V) (d : list (string * V)) : list (string * V) :=
  match d with
  | [] => [(k, v)]
  | (k', v') :: d' =>
      if k =? k' then (k, v) :: d' else (k', v') :: dict_set k v d'
  end.

Definition keys (d : list (string * V)) : list string := map fst d.

Definition has_key (k : string) (d : list (string * V)) : bool :=
  match lookup k d with Some _ => true | None => false end.
End Dict.

(** ** Exceptions *)

Inductive exc_class : Type :=
| ConnectionError          (* requests.exceptions.ConnectionError *)
| ProxyError               (* subclass of ConnectionError *)
| SSLError                 (* subclass of ConnectionError *)
| ConnectTimeout           (* subclass of ConnectionError and of Timeout *)
| ReadTimeout
| JSONDecodeError
| AttributeError
| KeyError
| TypeError
| ValueError
| OtherException (name : string).

Record exn : Type := mkExn { exc_class_of : exc_class; exc_str : string }.

(** [isinstance(e, requests.exceptions.ConnectionError)] *)
Definition isinstance_ConnectionError (e : exn) : bool :=
  match exc_class_of e with
  | ConnectionError | ProxyError | SSLError | ConnectTimeout => true
  | _ => false
  end.

Inductive res (A : Type) : Type :=
| Ret (a : A)
| Raise (e : exn).
Arguments Ret {A} a.
Arguments Raise {A} e.

Definition rbind {A B} (m : res A) (k : A -> res B) : res B :=
  match m with
  | Ret a => k a
  | Raise e => Raise e
  end.

Fixpoint rmap {A B} (f : A -> res B) (l : list A) : res (list B) :=
  match l with
  | [] => Ret []
  | x :: l' =>
      rbind (f x) (fun y => rbind (rmap f l') (fun ys => Ret (y :: ys)))
  end.

Definition attribute_error (v : json) (attr : string) : exn :=
  mkExn AttributeError
        ("'" ++ type_name v ++ "' object has no attribute '" ++ attr ++ "'").

Definition key_error (key : string) : exn :=
  mkExn KeyError ("'" ++ key ++ "'").

Definition type_error (msg : string) : exn := mkExn TypeError msg.

(** ** Operations of Python on decoded values *)

(** [v.get(key, default)] *)
Definition py_get (v : json) (key : string) (default : json) : res json :=
  match v with
  | JDict d => Ret (match lookup key d with Some x => x | None => default end)
  | _ => Raise (attribute_error v "get")
  end.

(** [v[key]] for a string [key] *)
Definition py_getitem (v : json) (key : string) : res json :=
  match v with
  | JDict d =>
      match lookup key d with
      | Some x => Ret x
      | None => Raise (key_error key)
      end
  | JStr _ => Raise (type_error "string indices must be integers")
  | JList _ => Raise (type_error "list indices must be integers or slices, not str")
  | _ => Raise (type_error ("'" ++ type_name v ++ "' object is not subscriptable"))
  end.

Definition is_str (s : string) (v : json) : bool :=
  match v with JStr s' => s =? s' | _ => false end.

Definition substring_of (s t : string) : bool :=
  match String.index 0 s t with Some _ => true | None => false end.

(** [key in v] for a string [key]: key membership in a dict, element
    membership in a list, substring test in a str. *)
Definition py_in (key : string) (v : json) : res bool :=
  match v with
  | JDict d => Ret (has_key key d)
  | JList l => Ret (existsb (is_str key) l)
  | JStr s => Ret (substring_of key s)
  | _ => Raise (type_error ("argument of type '" ++ type_name v ++ "' is not iterable"))
  end.

(** [for s in v]: the items an iteration over [v] yields. *)
Definition py_iter (v : json) : res (list json) :=
  match v with
  | JList l => Ret l
  | JDict d => Ret (map JStr (keys d))
  | JStr s => Ret (map (fun c => JStr (String c EmptyString)) (list_ascii_of_string s))
  | _ => Raise (type_error ("'" ++ type_name v ++ "' object is not iterable"))
  end.

(** [len(v)] *)
Definition py_len (v : json) : res Z :=
  match v with
  | JList l => Ret (Z.of_nat (List.length l))
  | JDict d => Ret (Z.of_nat (List.length d))
  | JStr s => Ret (Z.of_nat (String.length s))
  | _ => Raise (type_error ("object of type '" ++ type_name v ++ "' has no len()"))
  end.

(** ** Text *)

Definition is_ascii_char (c : ascii) : bool := (nat_of_ascii c <? 128)%nat.

Fixpoint is_ascii (s : string) : bool :=
  match s with
  | EmptyString => true
  | String c s' => is_ascii_char c && is_ascii s'
  end.

Definition upper_char (c : ascii) : ascii :=
  let n := nat_of_ascii c in
  if ((97 <=? n) && (n <=? 122))%nat then ascii_of_nat (n - 32) else c.

Definition lower_char (c : ascii) : ascii :=
  let n := nat_of_ascii c in
  if ((65 <=? n) && (n <=? 90))%nat then ascii_of_nat (n + 32) else c.

Fixpoint map_string (f : ascii -> ascii) (s : string) : string :=
  match s with
  | EmptyString => EmptyString
  | String c s' => String (f c) (map_string f s')
  end.

Definition ascii_upper : string -> string := map_string upper_char.
Definition ascii_lower : string -> string := map_string lower_char.

Definition ascii_capitalize (s : string) : string :=
  match s with
  | EmptyString => EmptyString
  | String c s' => String (upper_char c) (ascii_lower s')
  end.

Definition str_of_Z (z : Z) : string := NilZero.string_of_int (Z.to_int z).

(** ** What the libraries compute outside the modelled fragment *)

(** A parsed date: a point on the time axis, or pandas' [NaT]. *)
Inductive datetime : Type :=
| Timestamp (ns : Z)
| NaT.

(** A DataFrame cell: a value as its column stores it (NaN for a
    missing one) or, after [pd.to_datetime], a parsed date. *)
Inductive cell : Type :=
| Val (v : json)
| Date (d : datetime).

(** A DataFrame: the column names and, per row, the cell of each column. *)
Record dataframe : Type := mkFrame {
  columns : list string;
  rows : list (list (string * cell))
}.

Class PyRuntime : Type := {
  (** [str(v)] of a float, a list or a dict *)
  repr_other : json -> string;
  (** [format(v, ".Nf")] of a number *)
  format_fixed : nat -> json -> string;
  (** [s.upper()] and [s.capitalize()] of text that is not plain ASCII *)
  unicode_upper : string -> string;
  unicode_capitalize : string -> string;
  (** [pd.to_datetime(column)]: the parsed column, or the error raised
      when a value cannot be parsed *)
  to_datetime : list cell -> res (list datetime);
  (** [pd.DataFrame(data)] for [data] that is not a list of objects *)
  DataFrame_other : json -> res dataframe;
  (** The conversion [pd.DataFrame] applies to the values of a column
      once it has chosen the column's type from all of them: in a numeric
      column with a missing value or a null the integers become floats
      and the null NaN, a column of integers or of text is kept as it
      is.  [column_cast raw v] is the stored form of the value [v] of a
      column whose decoded values are [raw]. *)
  column_cast : list json -> json -> json;
  (** [keys.argsort()] of numpy with its default kind, which
      [sort_values] uses: the positions of [keys] in an ascending order
      of the keys.  The default kind is not stable: nothing is promised
      about the order of the positions of equal keys. *)
  argsort : list Z -> list nat;
  argsort_perm : forall keys,
    Permutation (argsort keys) (seq 0 (List.length keys));
  argsort_sorted : forall keys,
    StronglySorted Z.le (map (fun i => nth i keys 0%Z) (argsort keys))
}.

Section Text.
Context {rt : PyRuntime}.

(** [s.upper()] *)
Definition upper (s : string) : string :=
  if is_ascii s then ascii_upper s else unicode_upper s.

(** [s.capitalize()] *)
Definition capitalize (s : string) : string :=
  if is_ascii s then ascii_capitalize s else unicode_capitalize s.

(** [str(v)], which is also what an f-string field without a format
    specification inserts *)
Definition py_str (v : json) : string :=
  match v with
  | JNull => "None"
  | JBool true => "True"
  | JBool false => "False"
  | JInt z => str_of_Z z
  | JStr s => s
  | _ => repr_other v
  end.

(** The integers [float(z)] converts: those that round to a finite
    double, which are the ones below [2**1024 - 2**970] in absolute
    value. *)
Definition fits_float (z : Z) : bool :=
  (Z.abs z <? 2 ^ 1024 - 2 ^ 970)%Z.

(** [f"{v:.Nf}"]; an integer is converted to a float first. *)
Definition py_format_fixed (digits : nat) (v : json) : res string :=
  match v with
  | JInt z =>
      if fits_float z then Ret (format_fixed digits v)
      else Raise (mkExn (OtherException "OverflowError")
                        "int too large to convert to float")
  | JBool _ | JFloat _ => Ret (format_fixed digits v)
  | JStr _ =>
      Raise (mkExn ValueError "Unknown format code 'f' for object of type 'str'")
  | _ =>
      Raise (type_error ("unsupported format string passed to "
                           ++ type_name v ++ ".__format__"))
  end.
End Text.

(** ** The backend, the trace and the handler monad *)

(** One call of the [requests] library: the function called, the URL and
    the [params=] and [json=] keyword arguments ([JNull] when not given). *)
Record request : Type := mkRequest {
  req_call : string;
  req_url : string;
  req_params : json;
  req_json : json
}.

(** A response: its status code and what [response.json()] gives. *)
Record response : Type := mkResponse {
  status_code : Z;
  response_json : res json
}.

(** The backend answers the [n]-th HTTP call of a render with a response,
    or the library raises. *)
Definition backend : Type := nat -> request -> res response.

(** A plotly trace and a figure. *)
Inductive plot_trace : Type :=
| Candlestick (x open_ high low close : list cell) (name : json)
| Scatter (x y : list cell) (mode name : string) (line : list (string * string))
| Line (x y : list cell)
| Bar (x y : list cell).

Record figure : Type := mkFigure {
  fig_data : list plot_trace;
  fig_layout : list (string * json)
}.

(** What a render leaves behind, in order: the HTTP calls and the calls of
    the toolkit that show something.  Layout containers ([st.columns],
    [st.form] and entering a column or a tab) leave nothing. *)
Inductive event : Type :=
| Http (r : request)
| StTitle (s : string)
| StSidebarTitle (s : string)
| StHeader (s : string)
| StSubheader (s : string)
| StMarkdown (s : string)
| StWrite (s : string)
| StCode (s : string)
| StDivider
| StTabs (labels : list string)
| StExpander (label : string)
| StSpinner (text : string)
| StWidget (kind label : string)
| StError (v : json)
| StInfo (s : string)
| StWarning (s : string)
| StSuccess (s : string)
| StMetric (label : string) (value : json) (delta : option string)
| StDataframe (df : dataframe)
| StPlotlyChart (fig : figure).

Definition is_http (e : event) : bool :=
  match e with Http _ => true | _ => false end.

(** The HTTP calls of a trace, in order. *)
Fixpoint http_calls (t : list event) : list request :=
  match t with
  | [] => []
  | Http r :: t' => r :: http_calls t'
  | _ :: t' => http_calls t'
  end.

(** How a handler ends: it returns, an exception escapes it, or
    [st.rerun()] stops the script. *)
Inductive outcome (A : Type) : Type :=
| Done (a : A)
| Failed (e : exn)
| Rerun.
Arguments Done {A} a.
Arguments Failed {A} e.
Arguments Rerun {A}.

Definition H (A : Type) : Type := backend -> list event -> outcome A * list event.

Definition ret {A} (a : A) : H A := fun _ t => (Done a, t).

Definition bind {A B} (m : H A) (k : A -> H B) : H B :=
  fun b t =>
    match m b t with
    | (Done a, t') => k a b t'
    | (Failed e, t') => (Failed e, t')
    | (Rerun, t') => (Rerun, t')
    end.

Notation "x <- c1 ;; c2" := (bind c1 (fun x => c2))
  (at level 61, c1 at next level, right associativity).
Notation "c1 ;; c2" := (bind c1 (fun _ => c2))
  (at level 61, right associativity).

(** A pure Python expression evaluated inside a handler. *)
Definition lift {A} (r : res A) : H A :=
  fun _ t => match r with Ret a => (Done a, t) | Raise e => (Failed e, t) end.

Definition emit (e : event) : H unit := fun _ t => (Done tt, (t ++ [e])%list).

(** [try: body except Exception as e: handler(e)] *)
Definition try_except {A} (body : H A) (handler : exn -> H A) : H A :=
  fun b t =>
    match body b t with
    | (Failed e, t') => handler e b t'
    | r => r
    end.

(** [for x in l: body(x)] *)
Fixpoint for_each {A} (l : list A) (body : A -> H unit) : H unit :=
  match l with
  | [] => ret tt
  | x :: l' => body x ;; for_each l' body
  end.

(** A call of [requests.get], [.post], [.put] or [.delete]. *)
Definition requests_call (call url : string) (params body : json) : H response :=
  fun b t =>
    let r := mkRequest call url params body in
    (match b (List.length (http_calls t)) r with
     | Ret resp => Done resp
     | Raise e => Failed e
     end, (t ++ [Http r])%list).

(** ** The API Gateway *)

Definition API_BASE_URL : string := "http://localhost:8000/api/v1".

Definition error_value (msg : json) : json := JDict [("error", msg)].

Definition CANNOT_CONNECT : string :=
  "Cannot connect to backend API. Make sure the server is running.".

Definition fetch_api (endpoint method : string) (data : json) : H json :=
  let url := API_BASE_URL ++ endpoint in
  try_except
    (sent <- (if method =? "GET" then
                r <- requests_call "get" url data JNull ;; ret (Some r)
              else if method =? "POST" then
                r <- requests_call "post" url JNull data ;; ret (Some r)
              else if method =? "PUT" then
                r <- requests_call "put" url JNull data ;; ret (Some r)
              else if method =? "DELETE" then
                r <- requests_call "delete" url JNull JNull ;; ret (Some r)
              else ret None) ;;
     match sent with
     | None => ret (error_value (JStr "Invalid method"))
     | Some response =>
         if ((status_code response =? 200) || (status_code response =? 201))%Z then
           lift (response_json response)
         else if (status_code response =? 204)%Z then
           ret (JDict [("success", JBool true)])
         else
           body <- lift (response_json response) ;;
           detail <- lift (py_get body "detail" (JStr "API Error")) ;;
           ret (error_value detail)
     end)
    (fun e =>
       if isinstance_ConnectionError e then ret (error_value (JStr CANNOT_CONNECT))
       else ret (error_value (JStr (exc_str e)))).


(** ** The toolkit: what the user has entered, and the widgets *)

Record date : Type := mkDate { year : nat; month : nat; day : nat }.

Fixpoint zeros (n : nat) : string :=
  match n with
  | O => ""
  | S k => "0" ++ zeros k
  end.

Definition zero_pad (width n : nat) : string :=
  let s := NilEmpty.string_of_uint (Nat.to_uint n) in
  zeros (width - String.length s) ++ s.

(** [d.isoformat()] *)
Definition isoformat (d : date) : string :=
  zero_pad 4 (year d) ++ "-" ++ zero_pad 2 (month d) ++ "-" ++ zero_pad 2 (day d).

(** The state of the widgets when the script runs: what each input widget
    returns.  A choice in a select box or a radio group is the position of
    the chosen option.  The initial values the script passes to a widget
    only matter before the user has touched it and are not part of the
    model, nor are the toolkit's own checks of the range of a value or of
    the identity of a widget. *)
Record sm_state : Type := mkSm {       (* Stock Management *)
  sm_symbol : string;
  sm_fetch_add : bool;
  sm_m_symbol : string;
  sm_m_name : string;
  sm_m_sector : string;
  sm_m_industry : string;
  sm_m_exchange : string;
  sm_add_stock : bool;
  sm_delete : string -> bool;          (* by widget key *)
  sm_selected : nat;
  sm_period : nat;
  sm_use_dates : bool;
  sm_start_date : date;
  sm_end_date : date;
  sm_fetch_prices : bool
}.

Record ph_state : Type := mkPh {       (* Price History *)
  ph_selected : nat;
  ph_start_date : date;
  ph_end_date : date;
  ph_limit : Z;
  ph_chart_type : nat
}.

Record pj_state : Type := mkPj {       (* Projections *)
  pj_selected : nat;
  pj_days_ahead : Z;
  pj_lookback : Z;
  pj_proj_btn : bool;
  pj_window : Z;
  pj_ma_btn : bool;
  pj_vol_lookback : Z;
  pj_vol_btn : bool
}.

Record ui_state : Type := mkUi {
  ui_page : nat;
  ui_stock_management : sm_state;
  ui_price_history : ph_state;
  ui_projections : pj_state;
  ui_check_health : bool               (* Settings *)
}.

(** An input widget: it is drawn and returns the user's value. *)
Definition widget {A} (kind label : string) (value : A) : H A :=
  emit (StWidget kind label) ;; ret value.

(** [st.selectbox] and [st.radio] return the chosen option (the first one
    when the choice is out of range, [None] when there is no option). *)
Definition choose (options : list string) (choice : nat) : json :=
  match nth_error options choice with
  | Some o => JStr o
  | None => match options with o :: _ => JStr o | [] => JNull end
  end.

Definition st_selectbox (label : string) (options : list string) (choice : nat) : H json :=
  widget "selectbox" label (choose options choice).

Definition st_radio (label : string) (options : list string) (choice : nat) : H json :=
  widget "radio" label (choose options choice).

(** [st.rerun()] *)
Definition st_rerun : H unit := fun _ t => (Rerun, t).

(** A dict comprehension [{k: v for ...}] from its items in order. *)
Definition dict_of_items {V} (items : list (string * V)) : list (string * V) :=
  fold_left (fun d kv => dict_set (fst kv) (snd kv) d) items [].

Section Handlers.
Context {rt : PyRuntime}.

(** [d[key]] for a dict [d] built by the script *)
Definition options_getitem {V} (d : list (string * V)) (key : json) : res V :=
  match key with
  | JStr k =>
      match lookup k d with
      | Some v => Ret v
      | None => Raise (key_error k)
      end
  | _ => Raise (mkExn KeyError (py_str key))
  end.

(** [f"{s['symbol']} - {s['name']}"] *)
Definition stock_label (s : json) : res string :=
  rbind (py_getitem s "symbol") (fun sym =>
  rbind (py_getitem s "name") (fun name =>
  Ret (py_str sym ++ " - " ++ py_str name))).

(** [if "error" in result: st.error(result["error"]) else: ok(result)] *)
Definition on_result (result : json) (ok : H unit) : H unit :=
  is_error <- lift (py_in "error" result) ;;
  if (is_error : bool) then
    msg <- lift (py_getitem result "error") ;;
    emit (StError msg)
  else ok.

(** *** Stock Management *)

Definition quick_add (ui : sm_state) : H unit :=
  emit (StMarkdown "### Quick Add (Fetch from Yahoo Finance)") ;;
  symbol <- widget "text_input" "Stock Symbol" (sm_symbol ui) ;;
  clicked <- widget "button" "Fetch & Add Stock" (sm_fetch_add ui) ;;
  if (clicked : bool) then
    if negb (symbol =? "") then
      emit (StSpinner ("Fetching " ++ upper symbol ++ "...")) ;;
      result <- fetch_api ("/stocks/fetch/" ++ upper symbol) "POST" JNull ;;
      on_result result
        (sym <- lift (py_getitem result "symbol") ;;
         name <- lift (py_getitem result "name") ;;
         emit (StSuccess ("Added " ++ py_str sym ++ " - " ++ py_str name)))
    else
      emit (StWarning "Please enter a stock symbol")
  else ret tt.

(** [value or None] for the text of an optional field *)
Definition or_None (value : string) : json :=
  if negb (value =? "") then JStr value else JNull.

Definition manual_add (ui : sm_state) : H unit :=
  emit (StMarkdown "### Manual Add") ;;
  m_symbol <- widget "text_input" "Symbol" (sm_m_symbol ui) ;;
  m_name <- widget "text_input" "Company Name" (sm_m_name ui) ;;
  m_sector <- widget "text_input" "Sector (optional)" (sm_m_sector ui) ;;
  m_industry <- widget "text_input" "Industry (optional)" (sm_m_industry ui) ;;
  m_exchange <- widget "text_input" "Exchange (optional)" (sm_m_exchange ui) ;;
  submitted <- widget "form_submit_button" "Add Stock" (sm_add_stock ui) ;;
  if (submitted : bool) then
    if negb (m_symbol =? "") && negb (m_name =? "") then
      let data := JDict [("symbol", JStr (upper m_symbol));
                         ("name", JStr m_name);
                         ("sector", or_None m_sector);
                         ("industry", or_None m_industry);
                         ("exchange", or_None m_exchange)] in
      result <- fetch_api "/stocks/" "POST" data ;;
      on_result result
        (sym <- lift (py_getitem result "symbol") ;;
         name <- lift (py_getitem result "name") ;;
         emit (StSuccess ("Added " ++ py_str sym ++ " - " ++ py_str name)))
    else
      emit (StWarning "Symbol and Name are required")
  else ret tt.

(** The second tab: the list of stocks, with a delete button each. *)
Definition view_stocks (ui : sm_state) : H unit :=
  emit (StSubheader "Your Stocks") ;;
  stocks <- fetch_api "/stocks/" "GET" JNull ;;
  on_result stocks
    (if negb (truthy stocks) then
       emit (StInfo "No stocks found. Add some stocks first!")
     else
       items <- lift (py_iter stocks) ;;
       for_each items (fun stock =>
         label <- lift (stock_label stock) ;;
         emit (StExpander label) ;;
         sector <- lift (py_get stock "sector" (JStr "N/A")) ;;
         emit (StWrite ("**Sector:** " ++ py_str sector)) ;;
         industry <- lift (py_get stock "industry" (JStr "N/A")) ;;
         emit (StWrite ("**Industry:** " ++ py_str industry)) ;;
         exchange <- lift (py_get stock "exchange" (JStr "N/A")) ;;
         emit (StWrite ("**Exchange:** " ++ py_str exchange)) ;;
         is_active <- lift (py_get stock "is_active" JNull) ;;
         emit (StWrite ("**Active:** " ++ (if truthy is_active then "Yes" else "No"))) ;;
         id <- lift (py_getitem stock "id") ;;
         clicked <- widget "button" "Delete" (sm_delete ui ("delete_" ++ py_str id)) ;;
         if (clicked : bool) then
           id <- lift (py_getitem stock "id") ;;
           result <- fetch_api ("/stocks/" ++ py_str id) "DELETE" JNull ;;
           is_error <- lift (py_in "error" result) ;;
           if negb is_error then
             emit (StSuccess "Deleted!") ;;
             st_rerun
           else ret tt
         else ret tt)).

Definition PERIODS : list string := ["1mo"; "3mo"; "6mo"; "1y"; "2y"; "5y"; "max"].

(** The request body of the third tab: [data = {"symbol": .., "period":
    ..}], extended with the two dates when the custom range is on. *)
Definition fetch_prices_data (symbol period : json) (use_dates : bool)
           (start_date end_date : date) : list (string * json) :=
  let data := [("symbol", symbol); ("period", period)] in
  if use_dates then
    dict_set "end_date" (JStr (isoformat end_date))
             (dict_set "start_date" (JStr (isoformat start_date)) data)
  else data.

(** The third tab: fetch historical prices.  [start_date] and [end_date]
    are only read when the custom range is on; the script holds [None] in
    them otherwise. *)
Definition fetch_prices (ui : sm_state) : H unit :=
  emit (StSubheader "Fetch Historical Prices") ;;
  stocks <- fetch_api "/stocks/" "GET" JNull ;;
  on_result stocks
    (if negb (truthy stocks) then
       emit (StInfo "No stocks found. Add some stocks first!")
     else
       items <- lift (py_iter stocks) ;;
       entries <- lift (rmap (fun s =>
                     rbind (stock_label s) (fun label =>
                     rbind (py_getitem s "symbol") (fun sym =>
                     Ret (label, sym)))) items) ;;
       let stock_options := dict_of_items entries in
       selected <- st_selectbox "Select Stock" (keys stock_options) (sm_selected ui) ;;
       period <- st_selectbox "Period" PERIODS (sm_period ui) ;;
       use_dates <- widget "checkbox" "Use custom date range" (sm_use_dates ui) ;;
       start_date <- (if (use_dates : bool)
                      then widget "date_input" "Start Date" (sm_start_date ui)
                      else ret (sm_start_date ui)) ;;
       end_date <- (if use_dates
                    then widget "date_input" "End Date" (sm_end_date ui)
                    else ret (sm_end_date ui)) ;;
       clicked <- widget "button" "Fetch Prices" (sm_fetch_prices ui) ;;
       if (clicked : bool) then
         symbol <- lift (options_getitem stock_options selected) ;;
         let data := fetch_prices_data symbol period use_dates start_date end_date in
         emit (StSpinner ("Fetching prices for " ++ py_str symbol ++ "...")) ;;
         result <- fetch_api "/prices/fetch" "POST" (JDict data) ;;
         on_result result
           (total_fetched <- lift (py_getitem result "total_fetched") ;;
            new_records <- lift (py_getitem result "new_records") ;;
            emit (StSuccess ("Fetched " ++ py_str total_fetched ++ " prices, "
                               ++ py_str new_records ++ " new records added.")))
       else ret tt).

Definition show_stock_management (ui : sm_state) : H unit :=
  emit (StHeader "Stock Management") ;;
  emit (StTabs ["Add Stock"; "View Stocks"; "Fetch Prices"]) ;;
  emit (StSubheader "Add New Stock") ;;
  quick_add ui ;;
  manual_add ui ;;
  view_stocks ui ;;
  fetch_prices ui.

(** *** DataFrames and the chart data pipeline *)

Definition as_record (v : json) : option (list (string * json)) :=
  match v with JDict d => Some d | _ => None end.

Fixpoint as_records (l : list json) : option (list (list (string * json))) :=
  match l with
  | [] => Some []
  | v :: l' =>
      match as_record v, as_records l' with
      | Some d, Some ds => Some (d :: ds)
      | _, _ => None
      end
  end.

Definition add_column (cols : list string) (k : string) : list string :=
  if existsb (String.eqb k) cols then cols else (cols ++ [k])%list.

(** The columns of a frame built from records: every key, in the order
    of first appearance. *)
Definition record_columns (records : list (list (string * json))) : list string :=
  fold_left (fun cols r => fold_left add_column (keys r) cols) records [].

Definition NaN : json := JFloat S754_nan.

(** The value of a record in a column: NaN where the record lacks the
    key. *)
Definition record_value (c : string) (r : list (string * json)) : json :=
  match lookup c r with Some v => v | None => NaN end.

(** The decoded values of a column, record by record. *)
Definition raw_column (c : string) (records : list (list (string * json))) : list json :=
  map (record_value c) records.

(** The row of a record: per column, the record's value in the form the
    column stores. *)
Definition record_row (records : list (list (string * json))) (cols : list string)
    (r : list (string * json)) : list (string * cell) :=
  map (fun c => (c, Val (column_cast (raw_column c records) (record_value c r)))) cols.

(** [pd.DataFrame(data)] *)
Definition DataFrame (data : json) : res dataframe :=
  match data with
  | JList l =>
      match as_records l with
      | Some records =>
          let cols := record_columns records in
          Ret (mkFrame cols (map (record_row records cols) records))
      | None => DataFrame_other data
      end
  | _ => DataFrame_other data
  end.

Definition row_cell (name : string) (r : list (string * cell)) : cell :=
  match lookup name r with Some c => c | None => Val NaN end.

(** [df[name]] *)
Definition column (name : string) (df : dataframe) : res (list cell) :=
  if existsb (String.eqb name) (columns df)
  then Ret (map (row_cell name) (rows df))
  else Raise (key_error name).

(** [df[name] = values] *)
Definition set_column (name : string) (values : list cell) (df : dataframe) : res dataframe :=
  if (List.length values =? List.length (rows df))%nat then
    Ret (mkFrame (add_column (columns df) name)
                 (map (fun rv => dict_set name (snd rv) (fst rv))
                      (combine (rows df) values)))
  else
    Raise (mkExn ValueError "Length of values does not match length of index").

(** [df.empty] *)
Definition df_empty (df : dataframe) : bool :=
  match columns df, rows df with
  | [], _ | _, [] => true
  | _, _ => false
  end.

(** [df[cols]] for a list of existing columns *)
Definition select_columns (cols : list string) (df : dataframe) : dataframe :=
  mkFrame cols (map (fun r => map (fun c => (c, row_cell c r)) cols) (rows df)).

(** The time of a cell of a datetime column; [None] for [NaT]. *)
Definition cell_time (c : cell) : option Z :=
  match c with
  | Date (Timestamp ns) => Some ns
  | _ => None
  end.

Definition row := list (string * cell).

Definition has_time (by_ : string) (r : row) : bool :=
  match cell_time (row_cell by_ r) with Some _ => true | None => false end.

(** The sort key of a row that has a time. *)
Definition time_key (by_ : string) (r : row) : Z :=
  match cell_time (row_cell by_ r) with Some ns => ns | None => 0%Z end.

(** [l[indexer]]: the elements of [l] at the positions of [indexer]
    (the positions [argsort] returns are all in range). *)
Definition take {A : Type} (l : list A) (indexer : list nat) : list A :=
  flat_map (fun i => match nth_error l i with Some x => [x] | None => [] end) indexer.

(** The rows that have a time, in the order [argsort] gives their
    times. *)
Definition sort_timed (by_ : string) (l : list row) : list row :=
  let timed := filter (has_time by_) l in
  take timed (argsort (map (time_key by_) timed)).

(** The rows in the order [sort_values] gives them: those with a time in
    the order of the library's sort, then those without one in their
    input order. *)
Definition sorted_rows (by_ : string) (l : list row) : list row :=
  (sort_timed by_ l ++ filter (fun r => negb (has_time by_ r)) l)%list.

(** [df.sort_values(by)] on a datetime column: ascending, the rows whose
    date is [NaT] last ([na_position='last']).  The call names no
    [kind], so the library's default sort orders the rows that have a
    date; it promises an ascending order and nothing about rows of equal
    date. *)
Definition sort_values (by_ : string) (df : dataframe) : res dataframe :=
  if existsb (String.eqb by_) (columns df)
  then Ret (mkFrame (columns df) (sorted_rows by_ (rows df)))
  else Raise (key_error by_).

(** The chart data pipeline of [show_price_history] and of
    [show_projections]:
    [df = pd.DataFrame(data); df['date'] = pd.to_datetime(df['date']);
     df = df.sort_values('date')]. *)
Definition chart_data_pipeline (data : json) : res dataframe :=
  rbind (DataFrame data) (fun df =>
  rbind (column "date" df) (fun dates =>
  rbind (to_datetime dates) (fun parsed =>
  rbind (set_column "date" (map Date parsed) df) (fun df =>
  sort_values "date" df)))).

(** The same without the sort, as the moving-average tab and the
    projected series have it. *)
Definition parse_dates (data : json) : res dataframe :=
  rbind (DataFrame data) (fun df =>
  rbind (column "date" df) (fun dates =>
  rbind (to_datetime dates) (fun parsed =>
  set_column "date" (map Date parsed) df))).

(** *** Figures *)

(** [fig.update_layout(k1=v1, ...)] *)
Definition update_layout (settings : list (string * json)) (fig : figure) : figure :=
  mkFigure (fig_data fig)
           (fold_left (fun l kv => dict_set (fst kv) (snd kv) l) settings (fig_layout fig)).

(** [fig.add_trace(t)] *)
Definition add_trace (t : plot_trace) (fig : figure) : figure :=
  mkFigure (fig_data fig ++ [t])%list (fig_layout fig).

(** The column a plotly express chart takes from the frame. *)
Definition px_column (df : dataframe) (name : string) : res (list cell) :=
  if existsb (String.eqb name) (columns df)
  then Ret (map (row_cell name) (rows df))
  else Raise (mkExn ValueError
                    ("Value of 'y' is not the name of a column in 'data_frame'. "
                       ++ "Expected one of the columns but received: " ++ name)).

(** The stock selector of the Price History and Projections screens:
    [stock_options = {label: s for s in stocks}], the select box and
    [stock = stock_options[selected]]. *)
Definition select_stock (stocks : json) (choice : nat) : H json :=
  items <- lift (py_iter stocks) ;;
  entries <- lift (rmap (fun s => rbind (stock_label s) (fun label => Ret (label, s))) items) ;;
  let stock_options := dict_of_items entries in
  selected <- st_selectbox "Select Stock" (keys stock_options) choice ;;
  lift (options_getitem stock_options selected).

(** [st.metric(label, f"{prefix}{value:.Nf}{suffix}")] *)
Definition metric_fixed (label pre : string) (digits : nat) (value : json) (post : string) : H unit :=
  s <- lift (py_format_fixed digits value) ;;
  emit (StMetric label (JStr (pre ++ s ++ post)) None).

(** *** Price History *)

Definition show_price_history (ui : ph_state) : H unit :=
  emit (StHeader "Price History") ;;
  stocks <- fetch_api "/stocks/" "GET" JNull ;;
  on_result stocks
    (if negb (truthy stocks) then
       emit (StInfo "No stocks found. Add some stocks first!")
     else
       stock <- select_stock stocks (ph_selected ui) ;;
       start_date <- widget "date_input" "Start Date" (ph_start_date ui) ;;
       end_date <- widget "date_input" "End Date" (ph_end_date ui) ;;
       limit <- widget "number_input" "Max Records" (ph_limit ui) ;;
       let params := JDict [("start_date", JStr (isoformat start_date));
                            ("end_date", JStr (isoformat end_date));
                            ("limit", JInt limit)] in
       id <- lift (py_getitem stock "id") ;;
       prices <- fetch_api ("/prices/" ++ py_str id) "GET" params ;;
       on_result prices
         (if negb (truthy prices) then
            emit (StWarning
                    "No price data found. Fetch historical prices from Stock Management.")
          else
            df <- lift (chart_data_pipeline prices) ;;
            emit (StSubheader "Statistics") ;;
            id <- lift (py_getitem stock "id") ;;
            stats <- fetch_api ("/prices/" ++ py_str id ++ "/stats") "GET" JNull ;;
            is_error <- lift (py_in "error" stats) ;;
            (if negb is_error then
               min_price <- lift (py_get stats "min_price" (JInt 0)) ;;
               metric_fixed "Min Price" "$" 2 min_price "" ;;
               max_price <- lift (py_get stats "max_price" (JInt 0)) ;;
               metric_fixed "Max Price" "$" 2 max_price "" ;;
               avg_price <- lift (py_get stats "avg_price" (JInt 0)) ;;
               metric_fixed "Avg Price" "$" 2 avg_price "" ;;
               total_records <- lift (py_get stats "total_records" (JInt 0)) ;;
               emit (StMetric "Total Records" total_records None)
             else ret tt) ;;
            emit (StSubheader "Price Chart") ;;
            chart_type <- st_radio "Chart Type" ["Candlestick"; "Line"] (ph_chart_type ui) ;;
            fig <- (if is_str "Candlestick" chart_type then
                      x <- lift (column "date" df) ;;
                      open_ <- lift (column "open_price" df) ;;
                      high <- lift (column "high_price" df) ;;
                      low <- lift (column "low_price" df) ;;
                      close <- lift (column "close_price" df) ;;
                      name <- lift (py_getitem stock "symbol") ;;
                      ret (mkFigure [Candlestick x open_ high low close name] [])
                    else
                      sym <- lift (py_getitem stock "symbol") ;;
                      x <- lift (px_column df "date") ;;
                      y <- lift (px_column df "close_price") ;;
                      ret (mkFigure [Line x y]
                                    [("title", JStr (py_str sym ++ " Closing Price"))])) ;;
            emit (StPlotlyChart
                    (update_layout [("xaxis_title", JStr "Date");
                                    ("yaxis_title", JStr "Price ($)");
                                    ("height", JInt 500)] fig)) ;;
            emit (StSubheader "Trading Volume") ;;
            x <- lift (px_column df "date") ;;
            y <- lift (px_column df "volume") ;;
            emit (StPlotlyChart (update_layout [("height", JInt 300)] (mkFigure [Bar x y] []))) ;;
            emit (StExpander "View Raw Data") ;;
            emit (StDataframe df))).

(** *** Projections *)

(** [v.capitalize()] *)
Definition py_capitalize (v : json) : res string :=
  match v with
  | JStr s => Ret (capitalize s)
  | _ => Raise (attribute_error v "capitalize")
  end.

Definition price_projection (ui : pj_state) (stock : json) : H unit :=
  emit (StSubheader "Price Projection") ;;
  days_ahead <- widget "slider" "Days to Project" (pj_days_ahead ui) ;;
  lookback <- widget "slider" "Historical Days for Trend" (pj_lookback ui) ;;
  clicked <- widget "button" "Calculate Projection" (pj_proj_btn ui) ;;
  if (clicked : bool) then
    let params := JDict [("days_ahead", JInt days_ahead); ("lookback_days", JInt lookback)] in
    id <- lift (py_getitem stock "id") ;;
    projection <- fetch_api ("/prices/" ++ py_str id ++ "/projection") "GET" params ;;
    on_result projection
      (last_price <- lift (py_getitem projection "last_price") ;;
       metric_fixed "Last Price" "$" 2 last_price "" ;;
       trend <- lift (py_getitem projection "trend") ;;
       trend_text <- lift (py_capitalize trend) ;;
       emit (StMetric "Trend" (JStr trend_text)
                      (Some (if is_str "bullish" trend then "📈" else "📉"))) ;;
       daily_change_rate <- lift (py_getitem projection "daily_change_rate") ;;
       metric_fixed "Daily Change" "$" 4 daily_change_rate "" ;;
       r_squared <- lift (py_getitem projection "r_squared") ;;
       r_text <- lift (py_format_fixed 4 r_squared) ;;
       emit (StWrite ("**R-squared:** " ++ r_text ++ " (higher = more reliable trend)")) ;;
       projections <- lift (py_getitem projection "projections") ;;
       proj_df <- lift (parse_dates projections) ;;
       id <- lift (py_getitem stock "id") ;;
       hist_prices <- fetch_api ("/prices/" ++ py_str id) "GET"
                                (JDict [("limit", JInt lookback)]) ;;
       let hist_prices := if is_list hist_prices then hist_prices else JList [] in
       let fig := mkFigure [] [] in
       fig <- (if truthy hist_prices then
                 hist_df <- lift (chart_data_pipeline hist_prices) ;;
                 x <- lift (column "date" hist_df) ;;
                 y <- lift (column "close_price" hist_df) ;;
                 ret (add_trace (Scatter x y "lines" "Historical" [("color", "blue")]) fig)
               else ret fig) ;;
       x <- lift (column "date" proj_df) ;;
       y <- lift (column "projected_price" proj_df) ;;
       let fig := add_trace (Scatter x y "lines" "Projected"
                                     [("color", "orange"); ("dash", "dash")]) fig in
       sym <- lift (py_getitem stock "symbol") ;;
       emit (StPlotlyChart
               (update_layout [("title", JStr (py_str sym ++ " Price Projection"));
                               ("xaxis_title", JStr "Date");
                               ("yaxis_title", JStr "Price ($)");
                               ("height", JInt 500)] fig)))
  else ret tt.

Definition moving_average (ui : pj_state) (stock : json) : H unit :=
  emit (StSubheader "Moving Average Analysis") ;;
  window <- widget "slider" "Moving Average Window (days)" (pj_window ui) ;;
  clicked <- widget "button" "Calculate Moving Average" (pj_ma_btn ui) ;;
  if (clicked : bool) then
    id <- lift (py_getitem stock "id") ;;
    ma_data <- fetch_api ("/prices/" ++ py_str id ++ "/moving-average") "GET"
                         (JDict [("window", JInt window)]) ;;
    on_result ma_data
      (if is_list ma_data && truthy ma_data then
         df <- lift (parse_dates ma_data) ;;
         let fig := mkFigure [] [] in
         x <- lift (column "date" df) ;;
         y <- lift (column "close_price" df) ;;
         let fig := add_trace (Scatter x y "lines" "Close Price" [("color", "blue")]) fig in
         x <- lift (column "date" df) ;;
         y <- lift (column "moving_average" df) ;;
         let fig := add_trace (Scatter x y "lines" (str_of_Z window ++ "-day MA")
                                       [("color", "orange")]) fig in
         sym <- lift (py_getitem stock "symbol") ;;
         emit (StPlotlyChart
                 (update_layout [("title", JStr (py_str sym ++ " Moving Average"));
                                 ("xaxis_title", JStr "Date");
                                 ("yaxis_title", JStr "Price ($)");
                                 ("height", JInt 500)] fig))
       else
         emit (StWarning "No data available for moving average calculation"))
  else ret tt.

Definition volatility_analysis (ui : pj_state) (stock : json) : H unit :=
  emit (StSubheader "Volatility Analysis") ;;
  vol_lookback <- widget "slider" "Analysis Period (days)" (pj_vol_lookback ui) ;;
  clicked <- widget "button" "Calculate Volatility" (pj_vol_btn ui) ;;
  if (clicked : bool) then
    id <- lift (py_getitem stock "id") ;;
    volatility <- fetch_api ("/prices/" ++ py_str id ++ "/volatility") "GET"
                            (JDict [("lookback_days", JInt vol_lookback)]) ;;
    on_result volatility
      (v <- lift (py_getitem volatility "volatility") ;;
       metric_fixed "Annualized Volatility" "" 2 v "%" ;;
       r <- lift (py_getitem volatility "avg_daily_return") ;;
       metric_fixed "Average Daily Return" "" 4 r "%" ;;
       p <- lift (py_getitem volatility "price_range_pct") ;;
       metric_fixed "Price Range" "" 2 p "%" ;;
       lo <- lift (py_getitem volatility "min_price") ;;
       lo_text <- lift (py_format_fixed 2 lo) ;;
       hi <- lift (py_getitem volatility "max_price") ;;
       hi_text <- lift (py_format_fixed 2 hi) ;;
       emit (StMetric "Min/Max" (JStr ("$" ++ lo_text ++ " - $" ++ hi_text)) None))
  else ret tt.

Definition show_projections (ui : pj_state) : H unit :=
  emit (StHeader "Stock Projections & Analysis") ;;
  stocks <- fetch_api "/stocks/" "GET" JNull ;;
  on_result stocks
    (if negb (truthy stocks) then
       emit (StInfo "No stocks found. Add some stocks first!")
     else
       stock <- select_stock stocks (pj_selected ui) ;;
       emit (StTabs ["Price Projection"; "Moving Average"; "Volatility"]) ;;
       price_projection ui stock ;;
       moving_average ui stock ;;
       volatility_analysis ui stock).

(** *** Dashboard *)

(** [f == z] for a float and an int *)
Definition float_eq_Z (f : spec_float) (z : Z) : bool :=
  match f with
  | S754_zero _ => (z =? 0)%Z
  | S754_finite s m e =>
      let mz := if s then Z.neg m else Z.pos m in
      if (0 <=? e)%Z then (z =? mz * 2 ^ e)%Z else (z * 2 ^ (- e) =? mz)%Z
  | _ => false
  end.

Definition Z_of_bool (b : bool) : Z := if b then 1%Z else 0%Z.

(** Whether a set holds [x] already when it holds [y]: [x == y] on the
    values that can be put in a set (a NaN is the one object the decoder
    has for it). *)
Definition same_element (x y : json) : bool :=
  match x, y with
  | JNull, JNull => true
  | JStr s, JStr s' => s =? s'
  | JBool b, JBool b' => Bool.eqb b b'
  | JBool b, JInt z | JInt z, JBool b => (Z_of_bool b =? z)%Z
  | JBool b, JFloat f | JFloat f, JBool b => float_eq_Z f (Z_of_bool b)
  | JInt z, JInt z' => (z =? z')%Z
  | JInt z, JFloat f | JFloat f, JInt z => float_eq_Z f z
  | JFloat S754_nan, JFloat S754_nan => true
  | JFloat f, JFloat f' => SFeqb f f'
  | _, _ => false
  end.

(** [s.add(x)] *)
Definition set_add (x : json) (s : list json) : res (list json) :=
  match x with
  | JList _ | JDict _ =>
      Raise (type_error ("unhashable type: '" ++ type_name x ++ "'"))
  | _ => Ret (if existsb (same_element x) s then s else (s ++ [x])%list)
  end.

(** [set(s.get("sector") for s in stocks if s.get("sector"))] *)
Fixpoint sector_set (items : list json) (seen : list json) : res (list json) :=
  match items with
  | [] => Ret seen
  | s :: items' =>
      rbind (py_get s "sector" JNull) (fun sector =>
      if truthy sector then
        rbind (py_get s "sector" JNull) (fun sector =>
        rbind (set_add sector seen) (fun seen' => sector_set items' seen'))
      else sector_set items' seen)
  end.

(** [[s for s in stocks if s.get("is_active")]] *)
Fixpoint active_stocks (items : list json) : res (list json) :=
  match items with
  | [] => Ret []
  | s :: items' =>
      rbind (py_get s "is_active" JNull) (fun a =>
      rbind (active_stocks items') (fun rest =>
      Ret (if truthy a then s :: rest else rest)))
  end.

Definition DISPLAY_COLS : list string :=
  ["symbol"; "name"; "sector"; "industry"; "exchange"; "is_active"].

Definition show_dashboard : H unit :=
  emit (StHeader "Dashboard") ;;
  stocks <- fetch_api "/stocks/" "GET" JNull ;;
  is_error <- lift (py_in "error" stocks) ;;
  if (is_error : bool) then
    msg <- lift (py_getitem stocks "error") ;;
    emit (StError msg) ;;
    emit (StInfo "Make sure the backend API is running on http://localhost:8000")
  else if negb (truthy stocks) then
    emit (StInfo "No stocks in database. Add some stocks from the Stock Management page.")
  else
    total <- lift (py_len stocks) ;;
    emit (StMetric "Total Stocks" (JInt total) None) ;;
    items <- lift (py_iter stocks) ;;
    sectors <- lift (sector_set items []) ;;
    emit (StMetric "Sectors" (JInt (Z.of_nat (List.length sectors))) None) ;;
    items <- lift (py_iter stocks) ;;
    active <- lift (active_stocks items) ;;
    emit (StMetric "Active Stocks" (JInt (Z.of_nat (List.length active))) None) ;;
    emit StDivider ;;
    emit (StSubheader "Your Stocks") ;;
    df <- lift (DataFrame stocks) ;;
    if negb (df_empty df) then
      let display_cols :=
        filter (fun c => existsb (String.eqb c) (columns df)) DISPLAY_COLS in
      emit (StDataframe (select_columns display_cols df))
    else ret tt.

(** *** Settings *)

Definition show_settings (ui : ui_state) : H unit :=
  emit (StHeader "Settings") ;;
  emit (StInfo "API Configuration") ;;
  emit (StCode ("Backend URL: " ++ API_BASE_URL)) ;;
  emit (StSubheader "System Status") ;;
  clicked <- widget "button" "Check API Health" (ui_check_health ui) ;;
  if (clicked : bool) then
    try_except
      (response <- requests_call "get" "http://localhost:8000/health" JNull JNull ;;
       if (status_code response =? 200)%Z then
         emit (StSuccess "✅ Backend API is running")
       else
         emit (StError (JStr "❌ Backend API returned an error")))
      (fun _ => emit (StError (JStr "❌ Cannot connect to Backend API")))
  else ret tt.

(** *** Navigation *)

Definition PAGES : list string :=
  ["Dashboard"; "Stock Management"; "Price History"; "Projections"; "Settings"].

Definition main (ui : ui_state) : H unit :=
  emit (StTitle "📈 Stock Market Finance Application") ;;
  emit (StSidebarTitle "Navigation") ;;
  page <- st_selectbox "Choose a page" PAGES (ui_page ui) ;;
  if is_str "Dashboard" page then show_dashboard
  else if is_str "Stock Management" page then show_stock_management (ui_stock_management ui)
  else if is_str "Price History" page then show_price_history (ui_price_history ui)
  else if is_str "Projections" page then show_projections (ui_projections ui)
  else if is_str "Settings" page then show_settings ui
  else ret tt.
End Handlers.

(** ** The vocabulary of the properties *)

(** The call of the [requests] library [fetch_api] makes for a method, if
    it makes one. *)
Definition gateway_request (endpoint method : string) (data : json) : option request :=
  let url := API_BASE_URL ++ endpoint in
  if method =? "GET" then Some (mkRequest "get" url data JNull)
  else if method =? "POST" then Some (mkRequest "post" url JNull data)
  else if method =? "PUT" then Some (mkRequest "put" url JNull data)
  else if method =? "DELETE" then Some (mkRequest "delete" url JNull JNull)
  else None.

(** The error value the two [except] clauses turn an exception into. *)
Definition exception_value (e : exn) : json :=
  if isinstance_ConnectionError e then error_value (JStr CANNOT_CONNECT)
  else error_value (JStr (exc_str e)).

(** The body of the [try], once the library has answered. *)
Definition status_policy (resp : response) : res json :=
  if ((status_code resp =? 200) || (status_code resp =? 201))%Z then response_json resp
  else if (status_code resp =? 204)%Z then Ret (JDict [("success", JBool true)])
  else rbind (response_json resp) (fun body =>
       rbind (py_get body "detail" (JStr "API Error")) (fun detail =>
       Ret (error_value detail))).

Definition gateway_result (answer : res response) : json :=
  match rbind answer status_policy with
  | Ret v => v
  | Raise e => exception_value e
  end.

(** [calls_sat P m]: whatever the backend answers, every HTTP call [m]
    adds to the trace satisfies [P]. *)
Definition calls_sat {A} (P : request -> Prop) (m : H A) : Prop :=
  forall b t, exists new,
    http_calls (snd (m b t)) = (http_calls t ++ new)%list /\ Forall P new.

(** A computation that makes no HTTP call at all. *)
Definition quiet {A} (m : H A) : Prop := calls_sat (fun _ => False) m.

(** The call that lists the stocks. *)
Definition stocks_request : request :=
  mkRequest "get" (API_BASE_URL ++ "/stocks/") JNull JNull.

(** The order of a datetime column: by time, [NaT] after every time. *)
Definition time_le (a b : option Z) : Prop :=
  match a, b with
  | Some x, Some y => (x <= y)%Z
  | _, None => True
  | None, Some _ => False
  end.

Definition row_time (by_ : string) (r : row) : option Z := cell_time (row_cell by_ r).

(** The rows are in non-decreasing order of the column [by_]. *)
Definition sorted_by (by_ : string) (rs : list row) : Prop :=
  StronglySorted (fun r r' => time_le (row_time by_ r) (row_time by_ r')) rs.



(** What a frame built from records stores in the column [k], record by
    record. *)
Definition stored_column {rt : PyRuntime} (k : string)
    (records : list (list (string * json))) : list cell :=
  map (fun r => Val (column_cast (raw_column k records) (record_value k r))) records.

Definition is_chart (e : event) : bool :=
  match e with StPlotlyChart _ => true | _ => false end.



Section Charts.
Context {rt : PyRuntime}.

(** What [show_price_history] does once the statistics block is behind
    it: the price chart in the chosen form, the volume chart and the
    table. *)
Definition price_history_charts (ui : ph_state) (stock : json) (df : dataframe) : H unit :=
  emit (StSubheader "Price Chart") ;;
  chart_type <- st_radio "Chart Type" ["Candlestick"; "Line"] (ph_chart_type ui) ;;
  fig <- (if is_str "Candlestick" chart_type then
            x <- lift (column "date" df) ;;
            open_ <- lift (column "open_price" df) ;;
            high <- lift (column "high_price" df) ;;
            low <- lift (column "low_price" df) ;;
            close <- lift (column "close_price" df) ;;
            name <- lift (py_getitem stock "symbol") ;;
            ret (mkFigure [Candlestick x open_ high low close name] [])
          else
            sym <- lift (py_getitem stock "symbol") ;;
            x <- lift (px_column df "date") ;;
            y <- lift (px_column df "close_price") ;;
            ret (mkFigure [Line x y]
                          [("title", JStr (py_str sym ++ " Closing Price"))])) ;;
  emit (StPlotlyChart
          (update_layout [("xaxis_title", JStr "Date");
                          ("yaxis_title", JStr "Price ($)");
                          ("height", JInt 500)] fig)) ;;
  emit (StSubheader "Trading Volume") ;;
  x <- lift (px_column df "date") ;;
  y <- lift (px_column df "volume") ;;
  emit (StPlotlyChart (update_layout [("height", JInt 300)] (mkFigure [Bar x y] []))) ;;
  emit (StExpander "View Raw Data") ;;
  emit (StDataframe df).
End Charts.

Section Requests.
Context {rt : PyRuntime}.

(** The Gateway call of Quick Add, for a non-empty symbol. *)
Definition quick_add_request (symbol : string) : request :=
  mkRequest "post" (API_BASE_URL ++ "/stocks/fetch/" ++ upper symbol) JNull JNull.

(** The body Manual Add posts. *)
Definition manual_add_body (ui : sm_state) : list (string * json) :=
  [("symbol", JStr (upper (sm_m_symbol ui)));
   ("name", JStr (sm_m_name ui));
   ("sector", or_None (sm_m_sector ui));
   ("industry", or_None (sm_m_industry ui));
   ("exchange", or_None (sm_m_exchange ui))].

(** The ingestion call of the third tab for a symbol. *)
Definition fetch_prices_request (ui : sm_state) (symbol : json) : request :=
  mkRequest "post" (API_BASE_URL ++ "/prices/fetch") JNull
            (JDict (fetch_prices_data symbol (choose PERIODS (sm_period ui))
                                      (sm_use_dates ui) (sm_start_date ui) (sm_end_date ui))).

(** The call that fetches the prices of the visible window. *)
Definition prices_request (ui : ph_state) (id : json) : request :=
  mkRequest "get" (API_BASE_URL ++ "/prices/" ++ py_str id)
            (JDict [("start_date", JStr (isoformat (ph_start_date ui)));
                    ("end_date", JStr (isoformat (ph_end_date ui)));
                    ("limit", JInt (ph_limit ui))])
            JNull.

(** The call that fetches the statistics. *)
Definition stats_request (id : json) : request :=
  mkRequest "get" (API_BASE_URL ++ "/prices/" ++ py_str id ++ "/stats") JNull JNull.

(** The call of the Moving Average tab. *)
Definition moving_average_request (ui : pj_state) (id : json) : request :=
  mkRequest "get" (API_BASE_URL ++ "/prices/" ++ py_str id ++ "/moving-average")
            (JDict [("window", JInt (pj_window ui))]) JNull.

(** The other calls of the Projections screen. *)
Definition projection_request (ui : pj_state) (id : json) : request :=
  mkRequest "get" (API_BASE_URL ++ "/prices/" ++ py_str id ++ "/projection")
            (JDict [("days_ahead", JInt (pj_days_ahead ui));
                    ("lookback_days", JInt (pj_lookback ui))]) JNull.

Definition history_request (ui : pj_state) (id : json) : request :=
  mkRequest "get" (API_BASE_URL ++ "/prices/" ++ py_str id)
            (JDict [("limit", JInt (pj_lookback ui))]) JNull.


End Requests.

(** ** A runtime to run the model on examples

    Text is ASCII, dates are ISO-8601 calendar dates [YYYY-MM-DD], a
    number with [N] decimals is printed exactly when it is an int, and
    frames are built from lists of objects only; a float, a list or a
    dict is printed as the name of its type between angle brackets. *)

Definition digit_of (c : ascii) : option nat :=
  let n := nat_of_ascii c in
  if ((48 <=? n) && (n <=? 57))%nat then Some (n - 48)%nat else None.

Fixpoint number_of (cs : list ascii) (acc : nat) : option nat :=
  match cs with
  | [] => Some acc
  | c :: cs' =>
      match digit_of c with
      | Some d => number_of cs' (10 * acc + d)%nat
      | None => None
      end
  end.

Definition is_leap (y : nat) : bool :=
  ((y mod 4 =? 0) && (negb (y mod 100 =? 0) || (y mod 400 =? 0)))%nat.

Definition days_in_month (y m : nat) : nat :=
  match m with
  | 2 => if is_leap y then 29 else 28
  | 4 | 6 | 9 | 11 => 30
  | _ => 31
  end%nat.

Definition parse_iso_date (s : string) : option date :=
  match list_ascii_of_string s with
  | [y1; y2; y3; y4; "-"%char; m1; m2; "-"%char; d1; d2] =>
      match number_of [y1; y2; y3; y4] 0, number_of [m1; m2] 0, number_of [d1; d2] 0 with
      | Some y, Some m, Some d =>
          if ((1 <=? y) && (1 <=? m) && (m <=? 12) && (1 <=? d)
              && (d <=? days_in_month y m))%nat
          then Some (mkDate y m d) else None
      | _, _, _ => None
      end
  | _ => None
  end.

(** Days from 1970-01-01 to a date of the proleptic Gregorian calendar. *)
Definition days_from_epoch (d : date) : Z :=
  let m := Z.of_nat (month d) in
  let y := (Z.of_nat (year d) - (if m <=? 2 then 1 else 0))%Z in
  let era := (y / 400)%Z in
  let yoe := (y - era * 400)%Z in
  let doy := ((153 * (m + (if 2 <? m then -3 else 9)) + 2) / 5 + Z.of_nat (day d) - 1)%Z in
  let doe := (yoe * 365 + yoe / 4 - yoe / 100 + doy)%Z in
  (era * 146097 + doe - 719468)%Z.

Definition NS_PER_DAY : Z := 86400000000000.

Definition iso_to_datetime (c : cell) : res datetime :=
  match c with
  | Val JNull | Val (JFloat S754_nan) => Ret NaT
  | Val (JStr s) =>
      match parse_iso_date s with
      | Some d => Ret (Timestamp (days_from_epoch d * NS_PER_DAY))
      | None => Raise (mkExn ValueError ("Unknown datetime string format: " ++ s))
      end
  | Date d => Ret d
  | Val v => Raise (type_error ("<class '" ++ type_name v ++ "'> is not convertible to datetime"))
  end.

Definition fixed_of_int (digits : nat) (v : json) : string :=
  match v with
  | JInt z => str_of_Z z ++ (match digits with O => "" | _ => "." ++ zeros digits end)
  | JBool b => (if b then "1" else "0") ++ (match digits with O => "" | _ => "." ++ zeros digits end)
  | _ => "<" ++ type_name v ++ ">"
  end.

(** *** Sorting by insertion

    An [argsort] by insertion.  [before a b] tells whether a position of
    key [a] is placed before an already placed position of key [b]; the
    positions are inserted from the last to the first. *)
Section InsertionArgsort.
Variable before : Z -> Z -> bool.
Hypothesis before_true : forall a b, before a b = true -> (a <= b)%Z.
Hypothesis before_false : forall a b, before a b = false -> (b <= a)%Z.

Fixpoint insert_index (keys : list Z) (i : nat) (placed : list nat) : list nat :=
  match placed with
  | [] => [i]
  | j :: rest =>
      if before (nth i keys 0%Z) (nth j keys 0%Z) then i :: placed
      else j :: insert_index keys i rest
  end.

Fixpoint insertion_argsort_from (keys : list Z) (i n : nat) : list nat :=
  match n with
  | O => []
  | S n' => insert_index keys i (insertion_argsort_from keys (S i) n')
  end.

Definition insertion_argsort (keys : list Z) : list nat :=
  insertion_argsort_from keys 0 (List.length keys).

Lemma insert_index_perm (keys : list Z) (i : nat) (placed : list nat) :
  Permutation (insert_index keys i placed) (i :: placed).
Proof.
  induction placed as [|j rest IH]; simpl; [reflexivity|].
  destruct (before _ _); [reflexivity|].
  rewrite IH. apply perm_swap.
Qed.

Lemma insert_index_sorted (keys : list Z) (i : nat) (placed : list nat) :
  StronglySorted Z.le (map (fun i => nth i keys 0%Z) placed) ->
  StronglySorted Z.le (map (fun i => nth i keys 0%Z) (insert_index keys i placed)).
Proof.
  induction placed as [|j rest IH]; simpl; intros Hs.
  - constructor; constructor.
  - destruct (before _ _) eqn:Hb.
    + simpl. constructor; [exact Hs|].
      apply before_true in Hb.
      inversion Hs as [|? ? _ Hall]; subst.
      constructor; [exact Hb|].
      eapply Forall_impl; [|exact Hall]. simpl. intros; lia.
    + apply before_false in Hb.
      inversion Hs as [|? ? Hrest Hall]; subst.
      simpl. constructor; [apply IH; exact Hrest|].
      rewrite (Permutation_map _ (insert_index_perm keys i rest)). simpl.
      constructor; assumption.
Qed.

Lemma insertion_argsort_perm (keys : list Z) :
  Permutation (insertion_argsort keys) (seq 0 (List.length keys)).
Proof.
  unfold insertion_argsort. generalize 0%nat as i.
  induction (List.length keys) as [|n IH]; intros i; simpl; [reflexivity|].
  rewrite insert_index_perm. constructor. apply IH.
Qed.

Lemma insertion_argsort_sorted (keys : list Z) :
  StronglySorted Z.le (map (fun i => nth i keys 0%Z) (insertion_argsort keys)).
Proof.
  unfold insertion_argsort. generalize 0%nat as i.
  induction (List.length keys) as [|n IH]; intros i; simpl; [constructor|].
  apply insert_index_sorted, IH.
Qed.
End InsertionArgsort.

Lemma before_leb_true (a b : Z) : (a <=? b)%Z = true -> (a <= b)%Z.
Proof. apply Z.leb_le. Qed.

Lemma before_leb_false (a b : Z) : (a <=? b)%Z = false -> (b <= a)%Z.
Proof. intros H. apply Z.leb_gt in H. lia. Qed.



(** *** The example runtime

    Columns are stored as decoded (the example data has no missing value
    and no null in a numeric column); the sort keeps rows of equal key
    in their input order, which is one of the orders the contract of
    [argsort] allows. *)
Definition example_runtime : PyRuntime := {|
  repr_other := fun v => "<" ++ type_name v ++ ">";
  format_fixed := fixed_of_int;
  unicode_upper := ascii_upper;
  unicode_capitalize := ascii_capitalize;
  to_datetime := rmap iso_to_datetime;
  DataFrame_other := fun _ => Raise (mkExn ValueError "DataFrame constructor not properly called!");
  column_cast := fun _ v => v;
  argsort := insertion_argsort Z.leb;
  argsort_perm := insertion_argsort_perm Z.leb;
  argsort_sorted := @insertion_argsort_sorted Z.leb before_leb_true before_leb_false
|}.


(** Widget states with nothing entered, nothing clicked and the first
    option chosen everywhere. *)
Definition idle_sm : sm_state :=
  mkSm "" false "" "" "" "" "" false (fun _ => false) 0 0 false
       (mkDate 2024 1 1) (mkDate 2024 1 31) false.

Definition idle_ph : ph_state := mkPh 0 (mkDate 2024 1 1) (mkDate 2024 3 31) 200 0.

Definition idle_pj : pj_state := mkPj 0 30 90 false 20 false 30 false.

Definition idle_ui : ui_state := mkUi 0 idle_sm idle_ph idle_pj false.

(** ** A backend to run the model on examples *)

Definition apple : json :=
  JDict [("id", JInt 1); ("symbol", JStr "AAPL"); ("name", JStr "Apple Inc.");
         ("sector", JStr "Technology"); ("industry", JStr "Consumer Electronics");
         ("exchange", JStr "NASDAQ"); ("is_active", JBool true)].

Definition price_record (date : string) (open_ high low close volume : Z) : json :=
  JDict [("date", JStr date); ("open_price", JInt open_); ("high_price", JInt high);
         ("low_price", JInt low); ("close_price", JInt close); ("volume", JInt volume)].

(** Three trading days, latest first. *)
Definition apple_prices : json :=
  JList [price_record "2024-01-04" 182 184 181 183 900;
         price_record "2024-01-02" 187 189 184 186 1200;
         price_record "2024-01-03" 184 186 183 184 1000].


Definition apple_stats : json :=
  JDict [("min_price", JInt 120); ("max_price", JInt 199); ("avg_price", JInt 165);
         ("total_records", JInt 2510)].

Definition ok_response (body : json) : res response :=
  Ret (mkResponse 200 (Ret body)).

Definition error_response (status : Z) (detail : string) : res response :=
  Ret (mkResponse status (Ret (JDict [("detail", JStr detail)]))).

(** A backend given by the answer of each URL; any other URL is a 404. *)
Definition serve (routes : list (string * res response)) : backend :=
  fun _ r =>
    match lookup (req_url r) routes with
    | Some answer => answer
    | None => error_response 404 "Not Found"
    end.

Definition example_routes (stats : res response) : list (string * res response) :=
  [("http://localhost:8000/api/v1/stocks/", ok_response (JList [apple]));
   ("http://localhost:8000/api/v1/stocks/fetch/AAPL", ok_response apple);
   ("http://localhost:8000/api/v1/prices/fetch",
     ok_response (JDict [("total_fetched", JInt 21); ("new_records", JInt 21)]));
   ("http://localhost:8000/api/v1/prices/1", ok_response apple_prices);
   ("http://localhost:8000/api/v1/prices/1/stats", stats)].

(** Backends and widget states of the examples. *)

Definition answer_with (resp : response) : backend := fun _ _ => Ret resp.

Definition library_raises (e : exn) : backend := fun _ _ => Raise e.

(** A filled Manual Add form with the sector left blank. *)
Definition manual_form : sm_state :=
  mkSm "" false "msft" "Microsoft" "" "Software" "NASDAQ" true (fun _ => false) 0 0 false
       (mkDate 2024 1 1) (mkDate 2024 1 31) false.

(** The third tab with the custom date range on and the button pressed. *)
Definition custom_range : sm_state :=
  mkSm "" false "" "" "" "" "" false (fun _ => false) 0 0 true
       (mkDate 2024 1 1) (mkDate 2024 1 31) true.

(** The Price History screen with the window narrowed to one week. *)
Definition one_week : ph_state := mkPh 0 (mkDate 2024 1 1) (mkDate 2024 1 7) 50 0.

(** The Moving Average tab with the button pressed. *)
Definition ma_pressed : pj_state := mkPj 0 30 90 false 20 true 30 false.

(** A backend with a projection for the stock of id 1. *)
Definition projection_routes : list (string * res response) :=
  [("http://localhost:8000/api/v1/stocks/", ok_response (JList [apple]));
   ("http://localhost:8000/api/v1/prices/1", ok_response apple_prices);
   ("http://localhost:8000/api/v1/prices/1/projection",
     ok_response (JDict [("last_price", JInt 183); ("trend", JStr "bearish");
                         ("daily_change_rate", JInt (-1)); ("r_squared", JInt 1);
                         ("projections",
                           JList [JDict [("date", JStr "2024-01-05");
                                         ("projected_price", JInt 182)];
                                  JDict [("date", JStr "2024-01-06");
                                         ("projected_price", JInt 181)]])]))].

(** The projection tab with the button pressed. *)
Definition projection_pressed : pj_state := mkPj 0 30 90 true 20 false 30 false.

(** ** The vocabulary of the further properties *)

(** [trace_sat P m]: whatever the backend answers, [m] only appends to
    the trace, and every event it appends satisfies [P]. *)
Definition trace_sat {A} (P : event -> Prop) (m : H A) : Prop :=
  forall b t, exists new,
    snd (m b t) = (t ++ new)%list /\ Forall P new.

(** The liveness probe of the Settings screen. *)
Definition health_request : request :=
  mkRequest "get" "http://localhost:8000/health" JNull JNull.

(** The shape of a call through the Gateway: a path under the versioned
    base URL; a GET has no body, a POST has no query parameters, a DELETE
    has neither. *)
Definition gateway_shape (r : request) : Prop :=
  (exists path, req_url r = API_BASE_URL ++ path)
  /\ ((req_call r = "get" /\ req_json r = JNull)
      \/ (req_call r = "post" /\ req_params r = JNull)
      \/ (req_call r = "delete" /\ req_params r = JNull /\ req_json r = JNull)).

Section MoreRequests.
Context {rt : PyRuntime}.

(** The call of a delete button. *)
Definition delete_request (id : json) : request :=
  mkRequest "delete" (API_BASE_URL ++ "/stocks/" ++ py_str id) JNull JNull.
End MoreRequests.

(** No element of the list is the same set element as an earlier one. *)
Definition distinct_elements (l : list json) : Prop :=
  ForallOrdPairs (fun earlier later => same_element later earlier = false) l.

(** [s.get("is_active")] is true of the record. *)
Definition is_active (r : list (string * json)) : bool :=
  truthy (match lookup "is_active" r with Some v => v | None => JNull end).

(** The frame the Dashboard builds from a list of records. *)
Definition records_frame {rt : PyRuntime} (records : list (list (string * json))) : dataframe :=
  mkFrame (record_columns records) (map (record_row records (record_columns records)) records).

Section StockCard.
Context {rt : PyRuntime}.

(** What the list of the second tab shows of a stock record: the
    expander, the four lines and the delete button. *)
Definition stock_card (d : list (string * json)) (sym name : json) : list event :=
  let field k := py_str (match lookup k d with Some v => v | None => JStr "N/A" end) in
  [StExpander (py_str sym ++ " - " ++ py_str name);
   StWrite ("**Sector:** " ++ field "sector");
   StWrite ("**Industry:** " ++ field "industry");
   StWrite ("**Exchange:** " ++ field "exchange");
   StWrite ("**Active:** " ++ (if is_active d then "Yes" else "No"));
   StWidget "button" "Delete"].
End StockCard.

Section TrendMetric.
Context {rt : PyRuntime}.

(** What the "Trend" metric shows of a trend: its capitalized text, with
    the rising chart for the trend "bullish" and the falling chart for
    any other. *)
Definition trend_metric (trend : string) : event :=
  StMetric "Trend" (JStr (capitalize trend))
           (Some (if trend =? "bullish" then "📈" else "📉")).

Definition is_trend_metric (e : event) : bool :=
  match e with StMetric label _ _ => label =? "Trend" | _ => false end.
End TrendMetric.

(** The x series of a plotly trace. *)
Definition trace_x (tr : plot_trace) : list cell :=
  match tr with
  | Candlestick x _ _ _ _ _ => x
  | Scatter x _ _ _ _ => x
  | Line x _ => x
  | Bar x _ => x
  end.

(** A series of cells in non-decreasing order of time, [NaT] last. *)
Definition cells_sorted (x : list cell) : Prop :=
  StronglySorted time_le (map cell_time x).

(** What Price History draws from the price rows is in date order: the x
    series of every chart and the rows of the table. *)
Definition drawn_in_date_order (e : event) : Prop :=
  match e with
  | StPlotlyChart fig => Forall (fun tr => cells_sorted (trace_x tr)) (fig_data fig)
  | StDataframe df => sorted_by "date" (rows df)
  | _ => True
  end.

(** The chart of the projection tab: the projected series, after the
    historical series in date order when there is one. *)
Definition projection_chart (e : event) : Prop :=
  match e with
  | StPlotlyChart fig =>
      exists x y,
        let projected :=
          Scatter x y "lines" "Projected" [("color", "orange"); ("dash", "dash")] in
        fig_data fig = [projected]
        \/ exists hx hy,
             fig_data fig = [Scatter hx hy "lines" "Historical" [("color", "blue")]; projected]
             /\ cells_sorted hx
  | _ => True
  end.
(** * Properties *)

(** ** The API Gateway *)

Lemma fetch_api_run (endpoint method : string) (data : json) (b : backend) (t : list event) :
  fetch_api endpoint method data b t =
  match gateway_request endpoint method data with
  | Some r => (Done (gateway_result (b (List.length (http_calls t)) r)), (t ++ [Http r])%list)
  | None => (Done (error_value (JStr "Invalid method")), t)
  end.
Proof.
  unfold fetch_api, gateway_request, gateway_result, try_except, bind, requests_call, ret.
  repeat match goal with
         | |- context [if (?m =? ?s) then _ else _] => destruct (m =? s)
         end; try reflexivity.
  all: unfold status_policy, lift, exception_value, rbind.
  all: repeat match goal with
         | |- context [match ?x with _ => _ end] =>
             lazymatch x with
             | context [match _ with _ => _ end] => fail
             | _ => destruct x eqn:?; simpl
             end
         end; try reflexivity; try congruence.
Qed.

(** C1 (as amended): the status-code policy.  When the backend answers a
    call with a response: status 200 or 201 with a body that decodes gives
    the decoded body; status 204 gives the marker [{"success": True}]; any
    other status with a body that decodes to an object gives an error value
    whose message is the object's [detail], or ["API Error"] when the
    object has no [detail].  A body that does not decode, or that decodes
    on an error status to something other than an object, gives an error
    value carrying the text of the exception raised. *)
Theorem fetch_api_status_policy
    (b : backend) (t : list event) (endpoint method : string) (data : json)
    (r : request) (resp : response) :
  gateway_request endpoint method data = Some r ->
  b (List.length (http_calls t)) r = Ret resp ->
  fst (fetch_api endpoint method data b t) =
  Done (if ((status_code resp =? 200) || (status_code resp =? 201))%Z then
          match response_json resp with
          | Ret body => body
          | Raise e => exception_value e
          end
        else if (status_code resp =? 204)%Z then JDict [("success", JBool true)]
        else
          match response_json resp with
          | Ret (JDict d) =>
              error_value (match lookup "detail" d with
                           | Some detail => detail
                           | None => JStr "API Error"
                           end)
          | Ret body => error_value (JStr (exc_str (attribute_error body "get")))
          | Raise e => exception_value e
          end).
Proof.
  intros Hreq Hans.
  rewrite fetch_api_run, Hreq, Hans. cbn [fst].
  unfold gateway_result, status_policy. cbn [rbind].
  destruct ((status_code resp =? 200) || (status_code resp =? 201))%Z.
  - destruct (response_json resp); reflexivity.
  - destruct (status_code resp =? 204)%Z; [reflexivity | ].
    destruct (response_json resp) as [body | e]; [ | reflexivity].
    destruct body; reflexivity.
Qed.

Lemma fetch_api_status_policy_witness :
  fst (fetch_api "/stocks/" "POST" (JDict [("symbol", JStr "AAPL")])
                 (answer_with (mkResponse 422 (Ret (JDict [("detail", JStr "Symbol exists")])))) [])
  = Done (error_value (JStr "Symbol exists")).
Proof.
  exact (@fetch_api_status_policy
           (answer_with (mkResponse 422 (Ret (JDict [("detail", JStr "Symbol exists")]))))
           [] "/stocks/" "POST" (JDict [("symbol", JStr "AAPL")])
           (mkRequest "post" (API_BASE_URL ++ "/stocks/") JNull (JDict [("symbol", JStr "AAPL")]))
           _ eq_refl eq_refl).
Defined.

(** C1 (as stated) fails: a 500 response whose body is not JSON yields the
    text of the decoding exception, not the generic fallback message. *)
Lemma fetch_api_undecodable_error_body :
  let e := mkExn JSONDecodeError "Expecting value: line 1 column 1 (char 0)" in
  let result := fst (fetch_api "/stocks/" "GET" JNull (answer_with (mkResponse 500 (Raise e))) []) in
  result = Done (error_value (JStr "Expecting value: line 1 column 1 (char 0)"))
  /\ result <> Done (error_value (JStr "API Error")).
Proof.
  split; [reflexivity | discriminate].
Qed.



(** ** The HTTP calls of a handler *)

Lemma http_calls_app (t t' : list event) :
  http_calls (t ++ t') = (http_calls t ++ http_calls t')%list.
Proof.
  induction t as [ | e t IH]; simpl; [reflexivity | ].
  destruct e; simpl; rewrite ?IH; reflexivity.
Qed.

Lemma quiet_calls {A} (m : H A) (b : backend) (t : list event) :
  quiet m -> http_calls (snd (m b t)) = http_calls t.
Proof.
  intros Hq. destruct (Hq b t) as (new & -> & Hnew).
  destruct new as [ | r new]; [apply app_nil_r | ].
  inversion Hnew; contradiction.
Qed.

Lemma quiet_sat {A} (P : request -> Prop) (m : H A) : quiet m -> calls_sat P m.
Proof.
  intros Hq b t. exists []. rewrite (quiet_calls b t Hq), app_nil_r. split; constructor.
Qed.

Lemma sat_ret {A} P (a : A) : calls_sat P (ret a).
Proof. intros b t. exists []. simpl. rewrite app_nil_r. split; constructor. Qed.

Lemma sat_lift {A} P (r : res A) : calls_sat P (lift r).
Proof.
  intros b t. exists []. unfold lift. destruct r; simpl; rewrite app_nil_r; split; constructor.
Qed.

Lemma sat_emit P (e : event) : is_http e = false -> calls_sat P (emit e).
Proof.
  intros He b t. exists []. unfold emit. cbn [snd].
  rewrite http_calls_app. destruct e; try discriminate; simpl; split; constructor.
Qed.

Lemma sat_rerun P : calls_sat P st_rerun.
Proof. intros b t. exists []. simpl. rewrite app_nil_r. split; constructor. Qed.

Lemma sat_bind {A B} P (m : H A) (k : A -> H B) :
  calls_sat P m -> (forall a, calls_sat P (k a)) -> calls_sat P (bind m k).
Proof.
  intros Hm Hk b t. unfold bind.
  destruct (Hm b t) as (new & Hnew & HP).
  destruct (m b t) as [[a | e | ] t']; cbn [snd] in *.
  - destruct (Hk a b t') as (new' & Hnew' & HP').
    exists (new ++ new')%list. rewrite Hnew', Hnew, app_assoc.
    split; [reflexivity | apply Forall_app; split; assumption].
  - exists new. split; assumption.
  - exists new. split; assumption.
Qed.

(** The same when the value [m] returns is known. *)
Lemma sat_bind_val {A B} P (m : H A) (k : A -> H B) (v : A) :
  calls_sat P m -> (forall b t a, fst (m b t) = Done a -> a = v) ->
  calls_sat P (k v) -> calls_sat P (bind m k).
Proof.
  intros Hm Hv Hk b t. unfold bind.
  destruct (Hm b t) as (new & Hnew & HP). specialize (Hv b t).
  destruct (m b t) as [[a | e | ] t']; cbn [fst snd] in *.
  - rewrite (Hv a eq_refl).
    destruct (Hk b t') as (new' & Hnew' & HP').
    exists (new ++ new')%list. rewrite Hnew', Hnew, app_assoc.
    split; [reflexivity | apply Forall_app; split; assumption].
  - exists new. split; assumption.
  - exists new. split; assumption.
Qed.

Lemma sat_try_except {A} P (body : H A) (handler : exn -> H A) :
  calls_sat P body -> (forall e, calls_sat P (handler e)) -> calls_sat P (try_except body handler).
Proof.
  intros Hm Hk b t. unfold try_except.
  destruct (Hm b t) as (new & Hnew & HP).
  destruct (body b t) as [[a | e | ] t']; cbn [snd] in *.
  - exists new. split; assumption.
  - destruct (Hk e b t') as (new' & Hnew' & HP').
    exists (new ++ new')%list. rewrite Hnew', Hnew, app_assoc.
    split; [reflexivity | apply Forall_app; split; assumption].
  - exists new. split; assumption.
Qed.

Lemma sat_widget {A} P (kind label : string) (value : A) :
  calls_sat P (widget kind label value).
Proof.
  unfold widget. apply sat_bind; [apply sat_emit; reflexivity | intros; apply sat_ret].
Qed.

Lemma sat_bind_widget {A B} P (kind label : string) (value : A) (k : A -> H B) :
  calls_sat P (k value) -> calls_sat P (bind (widget kind label value) k).
Proof.
  intros Hk. apply sat_bind_val with (v := value); [apply sat_widget | | exact Hk].
  intros b t a [= <-]. reflexivity.
Qed.

Lemma sat_bind_ret {A B} P (value : A) (k : A -> H B) :
  calls_sat P (k value) -> calls_sat P (bind (ret value) k).
Proof.
  intros Hk. apply sat_bind_val with (v := value); [apply sat_ret | | exact Hk].
  intros b t a [= <-]. reflexivity.
Qed.

Lemma sat_for_each {A} P (l : list A) (body : A -> H unit) :
  (forall x, calls_sat P (body x)) -> calls_sat P (for_each l body).
Proof.
  intros Hbody. induction l as [ | x l IH]; simpl.
  - apply sat_ret.
  - apply sat_bind; [apply Hbody | intros; apply IH].
Qed.

Lemma sat_requests_call P (call url : string) (params body : json) :
  P (mkRequest call url params body) -> calls_sat P (requests_call call url params body).
Proof.
  intros HP b t. exists [mkRequest call url params body]. unfold requests_call. cbn [snd].
  rewrite http_calls_app. split; [reflexivity | constructor; [assumption | constructor]].
Qed.

Lemma sat_fetch_api P (endpoint method : string) (data : json) :
  (forall r, gateway_request endpoint method data = Some r -> P r) ->
  calls_sat P (fetch_api endpoint method data).
Proof.
  intros HP b t. rewrite fetch_api_run.
  destruct (gateway_request endpoint method data) as [r | ]; cbn [snd].
  - exists [r]. rewrite http_calls_app. split; [reflexivity | ].
    constructor; [apply HP; reflexivity | constructor].
  - exists []. rewrite app_nil_r. split; constructor.
Qed.

Lemma sat_weaken {A} (P Q : request -> Prop) (m : H A) :
  (forall r, P r -> Q r) -> calls_sat P m -> calls_sat Q m.
Proof.
  intros HPQ Hm b t. destruct (Hm b t) as (new & Hnew & HP).
  exists new. split; [assumption | ]. eapply Forall_impl; [ | exact HP]. exact HPQ.
Qed.

(** Reduces [calls_sat P m] along the structure of [m], leaving the calls
    of the Gateway. *)
Ltac calls_step :=
  first
    [ apply sat_ret | apply sat_lift | apply sat_rerun | apply sat_widget
    | apply sat_emit; reflexivity
    | apply sat_bind; [ | intro ]
    | apply sat_for_each; intro
    | apply sat_try_except; [ | intro ]
    | match goal with
      | |- calls_sat _ (if ?c then _ else _) => destruct c
      | |- calls_sat _ (match ?x with _ => _ end) => destruct x
      | |- calls_sat _ (let _ := _ in _) => cbv zeta
      end ].

Ltac calls := repeat calls_step.

(** ** Running a handler step by step *)

Lemma run_emit {B} (e : event) (k : unit -> H B) (b : backend) (t : list event) :
  bind (emit e) k b t = k tt b (t ++ [e])%list.
Proof. reflexivity. Qed.

Lemma run_lift {A B} (a : A) (k : A -> H B) (b : backend) (t : list event) :
  bind (lift (Ret a)) k b t = k a b t.
Proof. reflexivity. Qed.

Lemma run_lift_raise {A B} (e : exn) (k : A -> H B) (b : backend) (t : list event) :
  bind (lift (Raise e)) k b t = (Failed e, t).
Proof. reflexivity. Qed.

Lemma run_ret {A B} (a : A) (k : A -> H B) (b : backend) (t : list event) :
  bind (ret a) k b t = k a b t.
Proof. reflexivity. Qed.

Lemma run_widget {A B} (kind label : string) (value : A) (k : A -> H B)
      (b : backend) (t : list event) :
  bind (widget kind label value) k b t = k value b (t ++ [StWidget kind label])%list.
Proof. reflexivity. Qed.

Lemma run_assoc {A B C} (m : H A) (f : A -> H B) (g : B -> H C) (b : backend) (t : list event) :
  bind (bind m f) g b t = bind m (fun a => bind (f a) g) b t.
Proof. unfold bind. destruct (m b t) as [[a | e | ] t']; reflexivity. Qed.

Lemma run_fetch {B} (endpoint method : string) (data : json) (r : request)
      (k : json -> H B) (b : backend) (t : list event) :
  gateway_request endpoint method data = Some r ->
  bind (fetch_api endpoint method data) k b t =
  k (gateway_result (b (List.length (http_calls t)) r)) b (t ++ [Http r])%list.
Proof. intros Hr. unfold bind. rewrite fetch_api_run, Hr. reflexivity. Qed.

Lemma run_failed {A B} (m : H A) (k : A -> H B) (b : backend) (t t' : list event) (e : exn) :
  m b t = (Failed e, t') -> bind m k b t = (Failed e, t').
Proof. intros Hm. unfold bind. rewrite Hm. reflexivity. Qed.

Lemma bind_done {A B} (m : H A) (k : A -> H B) (b : backend) (t t' : list event) (a : A) :
  m b t = (Done a, t') -> bind m k b t = k a b t'.
Proof. intros Hm. unfold bind. rewrite Hm. reflexivity. Qed.

Lemma run_rerun {A B} (m : H A) (k : A -> H B) (b : backend) (t t' : list event) :
  m b t = (Rerun, t') -> bind m k b t = (Rerun, t').
Proof. intros Hm. unfold bind. rewrite Hm. reflexivity. Qed.

(** Runs the leading steps of a handler whose values are known. *)
Ltac run :=
  repeat first
    [ rewrite run_assoc
    | rewrite run_emit
    | rewrite run_widget
    | rewrite run_lift
    | rewrite run_lift_raise
    | rewrite run_ret
    | erewrite run_fetch by reflexivity ].

(** ** Stock Management *)

Section StockManagement.
Context {rt : PyRuntime}.

Lemma on_result_sat P (result : json) (ok : H unit) :
  calls_sat P ok -> calls_sat P (on_result result ok).
Proof. intros Hok. unfold on_result. calls. exact Hok. Qed.

(** What follows the Gateway call of the two add sub-flows makes no call. *)
Lemma added_quiet (result : json) :
  quiet (on_result result
           (sym <- lift (py_getitem result "symbol") ;;
            name <- lift (py_getitem result "name") ;;
            emit (StSuccess ("Added " ++ py_str sym ++ " - " ++ py_str name)))).
Proof. apply on_result_sat. calls. Qed.

Lemma upper_ascii (s : string) : is_ascii s = true -> upper s = ascii_upper s.
Proof. intros Hs. unfold upper. rewrite Hs. reflexivity. Qed.

(** C8: Quick Add.  When the button is pressed with a non-empty symbol,
    the sub-flow makes exactly one call, a POST whose path ends in the
    uppercased symbol (["aapl"] gives ["AAPL"]); with an empty symbol it
    shows the warning and makes no call. *)
Theorem quick_add_uppercases_symbol (ui : sm_state) (b : backend) (t : list event) :
  sm_fetch_add ui = true ->
  (sm_symbol ui <> "" ->
   http_calls (snd (quick_add ui b t)) = (http_calls t ++ [quick_add_request (sm_symbol ui)])%list)
  /\ (sm_symbol ui = "" ->
      quick_add ui b t =
      (Done tt, (t ++ [StMarkdown "### Quick Add (Fetch from Yahoo Finance)";
                       StWidget "text_input" "Stock Symbol";
                       StWidget "button" "Fetch & Add Stock";
                       StWarning "Please enter a stock symbol"])%list)
      /\ http_calls (snd (quick_add ui b t)) = http_calls t)
  /\ req_url (quick_add_request "aapl") = "http://localhost:8000/api/v1/stocks/fetch/AAPL".
Proof.
  intros Hclick. split; [ | split].
  - intros Hsym. apply String.eqb_neq in Hsym.
    unfold quick_add, widget, bind at 1 2 3 4 5, emit, ret. rewrite Hclick, Hsym. cbn [negb].
    unfold bind at 1 2. rewrite fetch_api_run.
    cbn [gateway_request String.eqb Ascii.eqb Bool.eqb]. cbv iota.
    rewrite quiet_calls by apply added_quiet.
    repeat (rewrite http_calls_app; cbn [http_calls]).
    rewrite !app_nil_r. reflexivity.
  - intros Hsym.
    assert (Hrun : quick_add ui b t =
                   (Done tt, (t ++ [StMarkdown "### Quick Add (Fetch from Yahoo Finance)";
                                    StWidget "text_input" "Stock Symbol";
                                    StWidget "button" "Fetch & Add Stock";
                                    StWarning "Please enter a stock symbol"])%list)).
    { unfold quick_add, widget, bind, emit, ret. rewrite Hclick, Hsym. cbn.
      rewrite <- !app_assoc. reflexivity. }
    split; [exact Hrun | ]. rewrite Hrun. cbn [snd].
    rewrite http_calls_app. cbn. apply app_nil_r.
  - reflexivity.
Qed.

Lemma manual_add_calls (ui : sm_state) (b : backend) (t : list event) :
  sm_add_stock ui = true -> sm_m_symbol ui <> "" -> sm_m_name ui <> "" ->
  http_calls (snd (manual_add ui b t)) =
  (http_calls t ++ [mkRequest "post" (API_BASE_URL ++ "/stocks/") JNull
                              (JDict (manual_add_body ui))])%list.
Proof.
  intros Hsub Hsym Hname. apply String.eqb_neq in Hsym, Hname.
  unfold manual_add, widget, bind at 1 2 3 4 5 6 7 8 9 10 11 12 13, emit, ret.
  rewrite Hsub, Hsym, Hname. cbn [negb andb].
  unfold bind at 1. rewrite fetch_api_run.
  cbn [gateway_request String.eqb Ascii.eqb Bool.eqb]. cbv iota.
  rewrite quiet_calls by apply added_quiet.
  repeat (rewrite http_calls_app; cbn [http_calls]).
  rewrite !app_nil_r. reflexivity.
Qed.

Lemma or_None_spec (value : string) :
  or_None value = (if value =? "" then JNull else JStr value)
  /\ or_None value <> JStr "".
Proof.
  unfold or_None. destruct (value =? "") eqn:E; cbn [negb].
  - split; [reflexivity | discriminate].
  - split; [reflexivity | ]. intros [= ->]. discriminate.
Qed.

(** C7: Manual Add.  The posted body carries, for each of [sector],
    [industry] and [exchange], [None] when the field was left blank and
    the text as given otherwise; it never carries an empty string. *)
Theorem manual_add_blank_is_None (ui : sm_state) (b : backend) (t : list event) :
  sm_add_stock ui = true -> sm_m_symbol ui <> "" -> sm_m_name ui <> "" ->
  exists body,
    http_calls (snd (manual_add ui b t)) =
    (http_calls t ++ [mkRequest "post" (API_BASE_URL ++ "/stocks/") JNull (JDict body)])%list
    /\ lookup "sector" body =
       Some (if sm_m_sector ui =? "" then JNull else JStr (sm_m_sector ui))
    /\ lookup "industry" body =
       Some (if sm_m_industry ui =? "" then JNull else JStr (sm_m_industry ui))
    /\ lookup "exchange" body =
       Some (if sm_m_exchange ui =? "" then JNull else JStr (sm_m_exchange ui))
    /\ (forall k, In k ["sector"; "industry"; "exchange"] -> lookup k body <> Some (JStr "")).
Proof.
  intros Hsub Hsym Hname. exists (manual_add_body ui).
  split; [apply manual_add_calls; assumption | ].
  cbn [manual_add_body lookup String.eqb Ascii.eqb Bool.eqb]. cbv iota.
  repeat split; try (f_equal; apply or_None_spec).
  intros k [<- | [<- | [<- | []]]]; cbn; intros [= E]; revert E; apply or_None_spec.
Qed.

(** C10: Manual Add uppercases the symbol too: the posted body carries
    the uppercased input as [symbol]. *)
Theorem manual_add_uppercases_symbol (ui : sm_state) (b : backend) (t : list event) :
  sm_add_stock ui = true -> sm_m_symbol ui <> "" -> sm_m_name ui <> "" ->
  exists body,
    http_calls (snd (manual_add ui b t)) =
    (http_calls t ++ [mkRequest "post" (API_BASE_URL ++ "/stocks/") JNull (JDict body)])%list
    /\ lookup "symbol" body = Some (JStr (upper (sm_m_symbol ui)))
    /\ (is_ascii (sm_m_symbol ui) = true ->
        lookup "symbol" body = Some (JStr (ascii_upper (sm_m_symbol ui)))).
Proof.
  intros Hsub Hsym Hname. exists (manual_add_body ui).
  split; [apply manual_add_calls; assumption | ].
  split; [reflexivity | ].
  intros Hascii. cbn. rewrite upper_ascii by assumption. reflexivity.
Qed.

(** C4 (as amended): Fetch Historical Prices.  Every call of the sub-flow
    is the stock list or the ingestion request, built from the widgets;
    the ingestion payload always carries [symbol] and the selected
    [period], and carries [start_date] and [end_date] as well exactly when
    the custom date range is on. *)
Theorem fetch_prices_payload (ui : sm_state) :
  calls_sat (fun r => r = stocks_request \/ exists symbol, r = fetch_prices_request ui symbol)
            (fetch_prices ui)
  /\ (forall symbol period start_date end_date,
         fetch_prices_data symbol period true start_date end_date =
         [("symbol", symbol); ("period", period);
          ("start_date", JStr (isoformat start_date));
          ("end_date", JStr (isoformat end_date))])
  /\ (forall symbol period start_date end_date,
         fetch_prices_data symbol period false start_date end_date =
         [("symbol", symbol); ("period", period)]).
Proof.
  split; [ | split; reflexivity].
  unfold fetch_prices.
  apply sat_bind; [apply sat_emit; reflexivity | intros _].
  apply sat_bind.
  { apply sat_fetch_api. intros r [= <-]. left. reflexivity. }
  intros stocks. apply on_result_sat.
  destruct (negb (truthy stocks)); [apply sat_emit; reflexivity | ].
  apply sat_bind; [apply sat_lift | intros items].
  apply sat_bind; [apply sat_lift | intros entries]. cbv zeta.
  unfold st_selectbox.
  apply sat_bind; [apply sat_widget | intros selected].
  apply sat_bind_widget. apply sat_bind_widget.
  destruct (sm_use_dates ui) eqn:Huse.
  - do 3 apply sat_bind_widget.
    destruct (sm_fetch_prices ui); [ | apply sat_ret].
    apply sat_bind; [apply sat_lift | intros symbol]. cbv zeta.
    apply sat_bind; [apply sat_emit; reflexivity | intros _].
    apply sat_bind.
    { apply sat_fetch_api. intros r [= <-]. right. exists symbol.
      unfold fetch_prices_request. rewrite Huse. reflexivity. }
    intros result. apply on_result_sat. calls.
  - do 2 apply sat_bind_ret. apply sat_bind_widget.
    destruct (sm_fetch_prices ui); [ | apply sat_ret].
    apply sat_bind; [apply sat_lift | intros symbol]. cbv zeta.
    apply sat_bind; [apply sat_emit; reflexivity | intros _].
    apply sat_bind.
    { apply sat_fetch_api. intros r [= <-]. right. exists symbol.
      unfold fetch_prices_request. rewrite Huse. reflexivity. }
    intros result. apply on_result_sat. calls.
Qed.
End StockManagement.

Lemma quick_add_uppercases_symbol_witness :
  http_calls (snd (quick_add (rt := example_runtime)
                             (mkSm "aapl" true "" "" "" "" "" false (fun _ => false) 0 0 false
                                   (mkDate 2024 1 1) (mkDate 2024 1 31) false)
                             (serve (example_routes (ok_response apple_stats))) []))
  = [mkRequest "post" "http://localhost:8000/api/v1/stocks/fetch/AAPL" JNull JNull].
Proof.
  apply (proj1 (@quick_add_uppercases_symbol example_runtime
                  (mkSm "aapl" true "" "" "" "" "" false (fun _ => false) 0 0 false
                        (mkDate 2024 1 1) (mkDate 2024 1 31) false)
                  (serve (example_routes (ok_response apple_stats))) [] eq_refl)).
  discriminate.
Defined.

Lemma manual_add_blank_is_None_witness :
  exists body,
    http_calls (snd (manual_add (rt := example_runtime) manual_form
                                (serve (example_routes (ok_response apple_stats))) []))
    = [mkRequest "post" "http://localhost:8000/api/v1/stocks/" JNull (JDict body)]
    /\ lookup "sector" body = Some JNull
    /\ lookup "industry" body = Some (JStr "Software")
    /\ lookup "exchange" body = Some (JStr "NASDAQ")
    /\ (forall k, In k ["sector"; "industry"; "exchange"] -> lookup k body <> Some (JStr "")).
Proof.
  apply (@manual_add_blank_is_None example_runtime manual_form
           (serve (example_routes (ok_response apple_stats))) []).
  - reflexivity.
  - discriminate.
  - discriminate.
Defined.

Lemma manual_add_uppercases_symbol_witness :
  exists body,
    http_calls (snd (manual_add (rt := example_runtime) manual_form
                                (serve (example_routes (ok_response apple_stats))) []))
    = [mkRequest "post" "http://localhost:8000/api/v1/stocks/" JNull (JDict body)]
    /\ lookup "symbol" body = Some (JStr "MSFT").
Proof.
  destruct (@manual_add_uppercases_symbol example_runtime manual_form
              (serve (example_routes (ok_response apple_stats))) []
              eq_refl ltac:(discriminate) ltac:(discriminate))
    as (body & Hcalls & Hsym & _).
  exists body. split; [exact Hcalls | exact Hsym].
Defined.

(** C4 (as stated) fails: with the custom date range on, the ingestion
    payload still carries the period preset next to the two dates. *)
Lemma fetch_prices_sends_period_with_dates :
  nth_error (http_calls (snd (fetch_prices (rt := example_runtime) custom_range
                                           (serve (example_routes (ok_response apple_stats)))
                                           []))) 1
  = Some (mkRequest "post" "http://localhost:8000/api/v1/prices/fetch" JNull
                    (JDict [("symbol", JStr "AAPL"); ("period", JStr "1mo");
                            ("start_date", JStr "2024-01-01");
                            ("end_date", JStr "2024-01-31")])).
Proof. vm_compute. reflexivity. Qed.

(** ** The chart data pipeline *)

Section Sorting.
Context {rt : PyRuntime}.
Variable by_ : string.

Lemma time_le_trans (a b c : option Z) : time_le a b -> time_le b c -> time_le a c.
Proof.
  destruct a, b, c; simpl; try tauto. apply Z.le_trans.
Qed.


Lemma has_time_key (r : row) :
  has_time by_ r = true -> row_time by_ r = Some (time_key by_ r).
Proof.
  unfold has_time, row_time, time_key.
  destruct (cell_time (row_cell by_ r)); [reflexivity | discriminate].
Qed.


(** *** Taking the elements at the positions of an indexer *)

Lemma take_seq_from {A} (front l : list A) :
  take (front ++ l) (seq (List.length front) (List.length l)) = l.
Proof.
  revert front. induction l as [ | x l IH]; intros front; simpl; [reflexivity | ].
  rewrite nth_error_app2, Nat.sub_diag by lia. simpl. f_equal.
  specialize (IH (front ++ [x])%list).
  rewrite <- app_assoc, length_app, Nat.add_comm in IH. exact IH.
Qed.

Lemma take_seq {A} (l : list A) : take l (seq 0 (List.length l)) = l.
Proof. exact (take_seq_from [] l). Qed.

Lemma take_perm {A} (l : list A) (indexer : list nat) :
  Permutation indexer (seq 0 (List.length l)) -> Permutation l (take l indexer).
Proof.
  intros Hperm. rewrite <- (take_seq l) at 1. unfold take.
  apply Permutation_flat_map. symmetry. exact Hperm.
Qed.

Lemma map_take {A B} (f : A -> B) (l : list A) (indexer : list nat) :
  map f (take l indexer) = take (map f l) indexer.
Proof.
  unfold take. induction indexer as [ | i indexer IH]; simpl; [reflexivity | ].
  rewrite map_app, IH, nth_error_map. destruct (nth_error l i); reflexivity.
Qed.

Lemma take_nth (keys : list Z) (indexer : list nat) :
  Forall (fun i => (i < List.length keys)%nat) indexer ->
  take keys indexer = map (fun i => nth i keys 0%Z) indexer.
Proof.
  unfold take. induction 1 as [ | i indexer Hi _ IH]; simpl; [reflexivity | ].
  rewrite IH. apply nth_error_nth' with (d := 0%Z) in Hi. rewrite Hi. reflexivity.
Qed.

Lemma take_argsort (keys : list Z) :
  Permutation keys (take keys (argsort keys))
  /\ StronglySorted Z.le (take keys (argsort keys)).
Proof.
  split; [apply take_perm, argsort_perm | ].
  rewrite take_nth; [apply argsort_sorted | ].
  eapply Permutation_Forall; [symmetry; apply argsort_perm | ].
  apply Forall_forall. intros i Hi. apply in_seq in Hi. lia.
Qed.

(** *** The order of the rows *)

Lemma sort_timed_perm (l : list row) :
  Permutation (filter (has_time by_) l) (sort_timed by_ l).
Proof.
  unfold sort_timed. apply take_perm.
  rewrite <- (length_map (time_key by_)). apply argsort_perm.
Qed.

Lemma sort_timed_has_time (l : list row) :
  Forall (fun r => has_time by_ r = true) (sort_timed by_ l).
Proof.
  eapply Permutation_Forall; [apply sort_timed_perm | ].
  apply Forall_forall. intros r Hr. apply filter_In in Hr. apply Hr.
Qed.

Lemma sort_timed_keys (l : list row) :
  StronglySorted Z.le (map (time_key by_) (sort_timed by_ l)).
Proof. unfold sort_timed. rewrite map_take. apply take_argsort. Qed.

Lemma sorted_keys_rows (l : list row) :
  Forall (fun r => has_time by_ r = true) l ->
  StronglySorted Z.le (map (time_key by_) l) <-> sorted_by by_ l.
Proof.
  unfold sorted_by. induction 1 as [ | r l Hr Hl IH]; simpl.
  - split; constructor.
  - assert (Hle : Forall (Z.le (time_key by_ r)) (map (time_key by_) l)
                  <-> Forall (fun r' => time_le (row_time by_ r) (row_time by_ r')) l).
    { rewrite Forall_map. rewrite !Forall_forall in *. split; intros Hall x Hx.
      - rewrite (has_time_key _ Hr), (has_time_key _ (Hl x Hx)). apply Hall, Hx.
      - specialize (Hall x Hx).
        rewrite (has_time_key _ Hr), (has_time_key _ (Hl x Hx)) in Hall. exact Hall. }
    split; intros Hs; inversion Hs; subst; constructor;
      try (apply IH; assumption); apply Hle; assumption.
Qed.

Lemma sort_timed_sorted (l : list row) : sorted_by by_ (sort_timed by_ l).
Proof. apply sorted_keys_rows; [apply sort_timed_has_time | apply sort_timed_keys]. Qed.



Lemma sorted_rows_sorted (l : list row) : sorted_by by_ (sorted_rows by_ l).
Proof.
  unfold sorted_rows, sorted_by.
  assert (Hnat : forall rs, Forall (fun r => has_time by_ r = false) rs ->
                            sorted_by by_ rs).
  { induction rs as [ | r rs IH]; intros Hrs; [constructor | ].
    inversion Hrs as [ | ? ? Hr Hrs']; subst. constructor; [apply IH; exact Hrs' | ].
    eapply Forall_impl; [ | exact Hrs']. intros x Hx.
    unfold row_time, has_time in *.
    destruct (cell_time (row_cell by_ x)); [discriminate | ].
    destruct (cell_time (row_cell by_ r)); exact I. }
  assert (Hlate : Forall (fun r => has_time by_ r = false)
                         (filter (fun r => negb (has_time by_ r)) l)).
  { apply Forall_forall. intros r Hr. apply filter_In in Hr as [_ Hr].
    destruct (has_time by_ r); [discriminate | reflexivity]. }
  generalize (sort_timed_sorted l).
  induction 1 as [ | r rs Hs IH Hle]; simpl; [apply Hnat; exact Hlate | ].
  constructor; [exact IH | ].
  apply Forall_app. split; [exact Hle | ].
  eapply Forall_impl; [ | exact Hlate]. intros x Hx.
  unfold row_time, has_time in *.
  destruct (cell_time (row_cell by_ x)); [discriminate | ].
  destruct (cell_time (row_cell by_ r)); exact I.
Qed.






End Sorting.

Section Pipeline.
Context {rt : PyRuntime}.

Lemma sort_values_rows (by_ : string) (df df' : dataframe) :
  sort_values by_ df = Ret df' ->
  columns df' = columns df /\ rows df' = sorted_rows by_ (rows df).
Proof.
  unfold sort_values. destruct (existsb (String.eqb by_) (columns df)); [ | discriminate].
  intros [= <-]. split; reflexivity.
Qed.



Lemma existsb_add_column (k k' : string) (cols : list string) :
  existsb (String.eqb k) (add_column cols k') =
  existsb (String.eqb k) cols || (k =? k').
Proof.
  unfold add_column. destruct (existsb (String.eqb k') cols) eqn:E.
  - destruct (k =? k') eqn:Ek; [ | rewrite orb_false_r; reflexivity].
    apply String.eqb_eq in Ek. subst. rewrite E. reflexivity.
  - rewrite existsb_app. simpl. rewrite orb_false_r. reflexivity.
Qed.

Lemma existsb_fold_add_column (k : string) (ks cols : list string) :
  existsb (String.eqb k) (fold_left add_column ks cols) =
  existsb (String.eqb k) cols || existsb (String.eqb k) ks.
Proof.
  revert cols. induction ks as [ | k' ks IH]; intros cols; simpl.
  - rewrite orb_false_r. reflexivity.
  - rewrite IH, existsb_add_column, orb_assoc. reflexivity.
Qed.

Lemma has_key_keys {V} (k : string) (d : list (string * V)) :
  has_key k d = existsb (String.eqb k) (keys d).
Proof.
  unfold has_key. induction d as [ | [k' v] d IH]; simpl; [reflexivity | ].
  destruct (k =? k'); [reflexivity | exact IH].
Qed.

(** A key of some record is a column of the frame. *)
Lemma record_columns_has (k : string) (records : list (list (string * json))) :
  existsb (String.eqb k) (record_columns records) = existsb (has_key k) records.
Proof.
  unfold record_columns.
  assert (H : forall cols,
             existsb (String.eqb k)
                     (fold_left (fun cols r => fold_left add_column (keys r) cols) records cols)
             = existsb (String.eqb k) cols || existsb (has_key k) records).
  { induction records as [ | r records IH]; intros cols; simpl.
    - rewrite orb_false_r. reflexivity.
    - rewrite IH, existsb_fold_add_column, has_key_keys, orb_assoc. reflexivity. }
  apply H.
Qed.

Lemma as_records_dicts (records : list (list (string * json))) :
  as_records (map JDict records) = Some records.
Proof.
  induction records as [ | r records IH]; simpl; [reflexivity | ].
  rewrite IH. reflexivity.
Qed.

Lemma record_row_cell (k : string) (records : list (list (string * json)))
    (cols : list string) (r : list (string * json)) :
  existsb (String.eqb k) cols = true ->
  row_cell k (record_row records cols r) =
  Val (column_cast (raw_column k records) (record_value k r)).
Proof.
  unfold row_cell, record_row. induction cols as [ | c cols IH]; simpl; [discriminate | ].
  destruct (k =? c) eqn:E.
  - apply String.eqb_eq in E. subst. reflexivity.
  - simpl. exact IH.
Qed.


End Pipeline.



(** ** Price History *)

Section PriceHistory.
Context {rt : PyRuntime}.


Lemma on_result_ok (result : json) (ok : H unit) (b : backend) (t : list event) :
  py_in "error" result = Ret false -> on_result result ok b t = ok b t.
Proof. intros Hin. unfold on_result, bind, lift. rewrite Hin. reflexivity. Qed.

Lemma fetch_stocks_run (b : backend) (t : list event) :
  http_calls t = [] ->
  fetch_api "/stocks/" "GET" JNull b t =
  (Done (gateway_result (b 0 stocks_request)), (t ++ [Http stocks_request])%list).
Proof. intros Ht. rewrite fetch_api_run, Ht. reflexivity. Qed.

Lemma select_stock_quiet (stocks : json) (choice : nat) : quiet (select_stock stocks choice).
Proof. unfold select_stock, st_selectbox. calls. Qed.

Lemma metric_fixed_quiet (label pre : string) (digits : nat) (value : json) (post : string) :
  quiet (metric_fixed label pre digits value post).
Proof. unfold metric_fixed. calls. Qed.

(** What follows the statistics fetch makes no call. *)
Lemma price_history_after_stats_quiet
    (ui : ph_state) (stock stats : json) (df : dataframe) :
  quiet (is_error <- lift (py_in "error" stats) ;;
         (if negb is_error then
            min_price <- lift (py_get stats "min_price" (JInt 0)) ;;
            metric_fixed "Min Price" "$" 2 min_price "" ;;
            max_price <- lift (py_get stats "max_price" (JInt 0)) ;;
            metric_fixed "Max Price" "$" 2 max_price "" ;;
            avg_price <- lift (py_get stats "avg_price" (JInt 0)) ;;
            metric_fixed "Avg Price" "$" 2 avg_price "" ;;
            total_records <- lift (py_get stats "total_records" (JInt 0)) ;;
            emit (StMetric "Total Records" total_records None)
          else ret tt) ;;
         price_history_charts ui stock df).
Proof.
  apply sat_bind; [apply sat_lift | intros is_error].
  apply sat_bind.
  { destruct (negb is_error); [ | apply sat_ret].
    repeat first [ apply quiet_sat, metric_fixed_quiet | calls_step ]. }
  intros _. unfold price_history_charts, st_radio.
  repeat first [ apply quiet_sat, metric_fixed_quiet | calls_step ].
Qed.

(** The calls of a Price History run, in order. *)
Lemma price_history_calls_in_order (ui : ph_state) (b : backend) :
  let calls := http_calls (snd (show_price_history ui b [])) in
  calls = [stocks_request]
  \/ (exists id, calls = [stocks_request; prices_request ui id])
  \/ (exists id, calls = [stocks_request; prices_request ui id; stats_request id]).
Proof.
  set (shape := fun calls =>
         calls = [stocks_request]
         \/ (exists id, calls = [stocks_request; prices_request ui id])
         \/ (exists id, calls = [stocks_request; prices_request ui id; stats_request id])).
  change (shape (http_calls (snd (show_price_history ui b [])))).
  assert (Hone : shape [stocks_request]) by (left; reflexivity).
  assert (Htwo : forall id, shape [stocks_request; prices_request ui id])
    by (intros id; right; left; exists id; reflexivity).
  assert (Hthree : forall id,
             shape [stocks_request; prices_request ui id; stats_request id])
    by (intros id; right; right; exists id; reflexivity).
  clearbody shape.
  unfold show_price_history. run.
  set (stocks := gateway_result _). unfold on_result at 1.
  destruct (py_in "error" stocks) as [[ | ] | e]; run; [ | | exact Hone].
  { destruct (py_getitem stocks "error"); run; exact Hone. }
  destruct (negb (truthy stocks)); [run; exact Hone | ].
  match goal with
  | |- context [bind (select_stock ?s ?c) ?k b ?t] =>
      pose proof (@quiet_calls _ (select_stock s c) b t (select_stock_quiet s c)) as Hq;
      destruct (select_stock s c b t) as [[stock | e | ] t1] eqn:Hsel;
      try rewrite Hsel in Hq; cbn [snd http_calls app] in Hq; fold stocks_request in Hq;
      [ erewrite bind_done by exact Hsel
      | erewrite run_failed by exact Hsel; cbn [snd]; rewrite Hq; exact Hone
      | erewrite run_rerun by exact Hsel; cbn [snd]; rewrite Hq; exact Hone ]
  end.
  run. cbv zeta.
  destruct (py_getitem stock "id") as [id | e]; run;
    [ | cbn [snd]; rewrite !http_calls_app, Hq; exact Hone].
  set (prices := gateway_result _). unfold on_result at 1.
  destruct (py_in "error" prices) as [[ | ] | e]; run.
  - destruct (py_getitem prices "error"); run; unfold emit; cbn [snd];
      rewrite !http_calls_app, Hq; exact (Htwo id).
  - destruct (negb (truthy prices)).
    { unfold emit. cbn [snd]. rewrite !http_calls_app, Hq. exact (Htwo id). }
    destruct (chart_data_pipeline prices) as [df | e]; run; cbn [snd];
      [ | rewrite !http_calls_app, Hq; exact (Htwo id)].
    fold (price_history_charts ui stock df).
    rewrite quiet_calls by apply price_history_after_stats_quiet.
    rewrite !http_calls_app, Hq. exact (Hthree id).
  - cbn [snd]. rewrite !http_calls_app, Hq. exact (Htwo id).
Qed.

(** C6: the calls of a Price History run are, in this order, the stock
    list, then the price fetch with the date window and the cap, then
    the statistics fetch, and a run may end after any of them; the
    statistics fetch is the GET of [/prices/{id}/stats] for the [id] of
    the price fetch, with no parameter and no body, whatever the window
    and the cap are.  When the stock list, the selection, the prices and
    the pipeline succeed, the three calls are made, for the [id] of the
    selected stock. *)
Theorem stats_request_has_no_parameters (ui : ph_state) (b : backend) :
  let calls := http_calls (snd (show_price_history ui b [])) in
  (calls = [stocks_request]
   \/ (exists id, calls = [stocks_request; prices_request ui id])
   \/ (exists id, calls = [stocks_request; prices_request ui id; stats_request id]))
  /\ (forall id,
         stats_request id
         = mkRequest "get" (API_BASE_URL ++ "/prices/" ++ py_str id ++ "/stats") JNull JNull)
  /\ (forall stocks stock id prices df t,
         gateway_result (b 0 stocks_request) = stocks ->
         py_in "error" stocks = Ret false ->
         truthy stocks = true ->
         select_stock stocks (ph_selected ui) b [StHeader "Price History"; Http stocks_request]
         = (Done stock, t) ->
         py_getitem stock "id" = Ret id ->
         gateway_result (b 1 (prices_request ui id)) = prices ->
         py_in "error" prices = Ret false ->
         truthy prices = true ->
         chart_data_pipeline prices = Ret df ->
         calls = [stocks_request; prices_request ui id; stats_request id]).
Proof.
  cbv zeta. split; [apply price_history_calls_in_order | ].
  split; [reflexivity | ].
  intros stocks stock id prices df t Hg Hin Htruthy Hsel Hid Hprices Hin' Htruthy' Hdf.
  assert (Hcalls : http_calls t = [stocks_request]).
  { change t with (snd (Done stock, t)). rewrite <- Hsel.
    rewrite quiet_calls by apply select_stock_quiet. reflexivity. }
  unfold show_price_history. run. cbn [http_calls List.length app].
  fold stocks_request. rewrite Hg, on_result_ok by exact Hin. rewrite Htruthy. cbn [negb].
  erewrite bind_done by exact Hsel. run. cbv zeta. rewrite Hid. run.
  rewrite !http_calls_app, Hcalls. cbn [http_calls app List.length].
  fold (prices_request ui id). rewrite Hprices, on_result_ok by exact Hin'.
  rewrite Htruthy'. cbn [negb]. rewrite Hdf. run.
  fold (price_history_charts ui stock df).
  rewrite quiet_calls by apply price_history_after_stats_quiet.
  rewrite !http_calls_app, Hcalls. reflexivity.
Qed.
End PriceHistory.

(** With the window narrowed, the price fetch carries it and the
    statistics fetch carries nothing. *)
Lemma stats_request_has_no_parameters_witness :
  http_calls (snd (show_price_history (rt := example_runtime) one_week
                     (serve (example_routes (ok_response apple_stats))) []))
  = [mkRequest "get" "http://localhost:8000/api/v1/stocks/" JNull JNull;
     mkRequest "get" "http://localhost:8000/api/v1/prices/1"
               (JDict [("start_date", JStr "2024-01-01"); ("end_date", JStr "2024-01-07");
                       ("limit", JInt 50)]) JNull;
     mkRequest "get" "http://localhost:8000/api/v1/prices/1/stats" JNull JNull].
Proof.
  exact (proj2 (proj2 (@stats_request_has_no_parameters
                         example_runtime one_week
                         (serve (example_routes (ok_response apple_stats)))))
               (JList [apple]) apple (JInt 1) apple_prices _
               [StHeader "Price History"; Http stocks_request;
                StWidget "selectbox" "Select Stock"]
               eq_refl eq_refl eq_refl eq_refl eq_refl eq_refl eq_refl eq_refl eq_refl).
Defined.

(** ** Error results in the screen handlers *)

Section ErrorResults.
Context {rt : PyRuntime}.






(** *** Stock Management: the error ends the tab *)




(** *** Projections: the error ends the tab *)





(** *** The fetches whose error does not end anything *)



End ErrorResults.



(** ** The Moving Average tab *)

Section MovingAverage.
Context {rt : PyRuntime}.

(** The tab up to the answer of the Gateway. *)
Lemma moving_average_run (ui : pj_state) (stock id : json) (b : backend) (t : list event) :
  pj_ma_btn ui = true ->
  py_getitem stock "id" = Ret id ->
  exists (ok : H unit),
    moving_average ui stock b t =
    (let ma_data := gateway_result (b (List.length (http_calls t))
                                      (moving_average_request ui id)) in
     on_result ma_data
       (if is_list ma_data && truthy ma_data then ok
        else emit (StWarning "No data available for moving average calculation"))
       b (t ++ [StSubheader "Moving Average Analysis";
                StWidget "slider" "Moving Average Window (days)";
                StWidget "button" "Calculate Moving Average";
                Http (moving_average_request ui id)])%list).
Proof.
  intros Hbtn Hid. eexists.
  unfold moving_average, widget, bind at 1 2 3 4 5 6, emit at 1 2 3, ret, lift.
  rewrite Hbtn, Hid. unfold bind at 1. rewrite fetch_api_run.
  cbn [gateway_request String.eqb Ascii.eqb Bool.eqb]. cbv iota zeta.
  repeat (rewrite http_calls_app; cbn [http_calls]). rewrite !app_nil_r.
  fold (moving_average_request ui id). rewrite <- !app_assoc. cbn [app].
  reflexivity.
Qed.

(** C9 (as amended): the Moving Average tab, once the button is pressed.
    A result on which the error test is false and that is an empty list
    or no list at all gets the warning, and that ends the tab; and a chart
    is drawn only when the error test is false on the result and the
    result is a non-empty list. *)
Theorem moving_average_warns_without_data
    (ui : pj_state) (stock id : json) (b : backend) (t : list event) :
  pj_ma_btn ui = true ->
  py_getitem stock "id" = Ret id ->
  let ma_data := gateway_result (b (List.length (http_calls t))
                                   (moving_average_request ui id)) in
  (py_in "error" ma_data = Ret false ->
   is_list ma_data && truthy ma_data = false ->
   moving_average ui stock b t =
   (Done tt, (t ++ [StSubheader "Moving Average Analysis";
                    StWidget "slider" "Moving Average Window (days)";
                    StWidget "button" "Calculate Moving Average";
                    Http (moving_average_request ui id);
                    StWarning "No data available for moving average calculation"])%list))
  /\ (existsb is_chart (snd (moving_average ui stock b t)) = true ->
      existsb is_chart t = true
      \/ (py_in "error" ma_data = Ret false /\ is_list ma_data && truthy ma_data = true)).
Proof.
  intros Hbtn Hid ma_data.
  destruct (moving_average_run ui stock b t Hbtn Hid) as [ok Hrun].
  fold ma_data in Hrun. cbv zeta in Hrun. rewrite Hrun. clear Hrun. split.
  - intros Hin Hdata. rewrite on_result_ok by exact Hin. rewrite Hdata.
    unfold emit. rewrite <- app_assoc. reflexivity.
  - unfold on_result, bind, lift, emit.
    destruct (py_in "error" ma_data) as [[ | ] | e]; cbn [fst snd].
    + destruct (py_getitem ma_data "error"); cbn [snd];
        rewrite ?existsb_app; cbn; rewrite ?orb_false_r; auto.
    + destruct (is_list ma_data && truthy ma_data); [auto | ].
      cbn [snd]. rewrite !existsb_app. cbn. rewrite !orb_false_r. auto.
    + rewrite existsb_app. cbn. rewrite orb_false_r. auto.
Qed.
End MovingAverage.

Lemma moving_average_warns_without_data_witness :
  moving_average (rt := example_runtime) ma_pressed apple
                 (serve [("http://localhost:8000/api/v1/prices/1/moving-average",
                          ok_response (JList []))]) []
  = (Done tt, [StSubheader "Moving Average Analysis";
               StWidget "slider" "Moving Average Window (days)";
               StWidget "button" "Calculate Moving Average";
               Http (moving_average_request (rt := example_runtime) ma_pressed (JInt 1));
               StWarning "No data available for moving average calculation"]).
Proof.
  exact (proj1 (@moving_average_warns_without_data example_runtime ma_pressed apple (JInt 1)
                  (serve [("http://localhost:8000/api/v1/prices/1/moving-average",
                           ok_response (JList []))]) [] eq_refl eq_refl)
               eq_refl eq_refl).
Defined.

(** C9 (as stated) fails: a result that is no list at all may get no
    warning.  When the backend answers [null], the error test itself
    raises and the tab ends there, with neither a warning nor a chart. *)
Lemma moving_average_null_result_raises :
  moving_average (rt := example_runtime) ma_pressed apple
                 (serve [("http://localhost:8000/api/v1/prices/1/moving-average",
                          ok_response JNull)]) []
  = (Failed (type_error "argument of type 'NoneType' is not iterable"),
     [StSubheader "Moving Average Analysis";
      StWidget "slider" "Moving Average Window (days)";
      StWidget "button" "Calculate Moving Average";
      Http (moving_average_request (rt := example_runtime) ma_pressed (JInt 1))]).
Proof. vm_compute. reflexivity. Qed.

(** * Further properties *)

(** ** The Gateway: methods and payloads *)

(** X1: a method other than GET, POST, PUT and DELETE (the comparison is
    case-sensitive) is refused with the error value "Invalid method", and
    nothing is sent. *)
Theorem fetch_api_invalid_method
    (endpoint method : string) (data : json) (b : backend) (t : list event) :
  ~ In method ["GET"; "POST"; "PUT"; "DELETE"] ->
  fetch_api endpoint method data b t = (Done (error_value (JStr "Invalid method")), t).
Proof.
  intros Hm. rewrite fetch_api_run. unfold gateway_request.
  destruct (method =? "GET") eqn:E1;
    [apply String.eqb_eq in E1; exfalso; apply Hm; subst; simpl; auto | ].
  destruct (method =? "POST") eqn:E2;
    [apply String.eqb_eq in E2; exfalso; apply Hm; subst; simpl; auto | ].
  destruct (method =? "PUT") eqn:E3;
    [apply String.eqb_eq in E3; exfalso; apply Hm; subst; simpl; auto | ].
  destruct (method =? "DELETE") eqn:E4;
    [apply String.eqb_eq in E4; exfalso; apply Hm; subst; simpl; auto 6 | ].
  reflexivity.
Qed.

Lemma fetch_api_invalid_method_witness :
  fetch_api "/stocks/" "get" JNull (library_raises (mkExn ConnectionError "refused")) []
  = (Done (error_value (JStr "Invalid method")), []).
Proof.
  apply fetch_api_invalid_method.
  simpl. intros [H | [H | [H | [H | []]]]]; discriminate.
Defined.

(** X2: one call of the Gateway is one call of the library, whatever the
    answer (a failure is not retried): a GET sends the payload as query
    parameters, a POST or a PUT as JSON body, a DELETE drops it. *)
Theorem fetch_api_one_round_trip (endpoint : string) (data : json) (b : backend) (t : list event) :
  let url := API_BASE_URL ++ endpoint in
  snd (fetch_api endpoint "GET" data b t) = (t ++ [Http (mkRequest "get" url data JNull)])%list
  /\ snd (fetch_api endpoint "POST" data b t) = (t ++ [Http (mkRequest "post" url JNull data)])%list
  /\ snd (fetch_api endpoint "PUT" data b t) = (t ++ [Http (mkRequest "put" url JNull data)])%list
  /\ snd (fetch_api endpoint "DELETE" data b t)
     = (t ++ [Http (mkRequest "delete" url JNull JNull)])%list.
Proof.
  cbv zeta. rewrite !fetch_api_run. repeat split.
Qed.

(** ** The events of a handler *)

Lemma ts_ret {A} P (a : A) : trace_sat P (ret a).
Proof. intros b t. exists []. simpl. rewrite app_nil_r. split; constructor. Qed.

Lemma ts_lift {A} P (r : res A) : trace_sat P (lift r).
Proof.
  intros b t. exists []. unfold lift. destruct r; simpl; rewrite app_nil_r; split; constructor.
Qed.

Lemma ts_emit (P : event -> Prop) (e : event) : P e -> trace_sat P (emit e).
Proof.
  intros He b t. exists [e]. split; [reflexivity | constructor; [exact He | constructor]].
Qed.

Lemma ts_rerun P : trace_sat P st_rerun.
Proof. intros b t. exists []. simpl. rewrite app_nil_r. split; constructor. Qed.

Lemma ts_bind {A B} P (m : H A) (k : A -> H B) :
  trace_sat P m -> (forall a, trace_sat P (k a)) -> trace_sat P (bind m k).
Proof.
  intros Hm Hk b t. unfold bind.
  destruct (Hm b t) as (new & Hnew & HP).
  destruct (m b t) as [[a | e | ] t']; cbn [snd] in *.
  - destruct (Hk a b t') as (new' & Hnew' & HP').
    exists (new ++ new')%list. rewrite Hnew', Hnew, app_assoc.
    split; [reflexivity | apply Forall_app; split; assumption].
  - exists new. split; assumption.
  - exists new. split; assumption.
Qed.

(** The same when what is bound is a pure expression: the rest only runs
    on the value it evaluates to. *)
Lemma ts_bind_lift {A B} P (r : res A) (k : A -> H B) :
  (forall a, r = Ret a -> trace_sat P (k a)) -> trace_sat P (bind (lift r) k).
Proof.
  intros Hk b t. unfold bind, lift. destruct r as [a | e].
  - apply Hk. reflexivity.
  - exists []. cbn [snd]. rewrite app_nil_r. split; constructor.
Qed.

Lemma ts_widget {A} (P : event -> Prop) (kind label : string) (value : A) :
  P (StWidget kind label) -> trace_sat P (widget kind label value).
Proof.
  intros HP. unfold widget. apply ts_bind; [apply ts_emit; exact HP | intros; apply ts_ret].
Qed.

Lemma ts_bind_widget {A B} (P : event -> Prop) (kind label : string) (value : A) (k : A -> H B) :
  P (StWidget kind label) -> trace_sat P (k value) ->
  trace_sat P (bind (widget kind label value) k).
Proof.
  intros HP Hk b t. unfold bind, widget, emit, ret. cbn.
  destruct (Hk b (t ++ [StWidget kind label])%list) as (new & Hnew & Hall).
  exists (StWidget kind label :: new). rewrite Hnew, <- app_assoc. split; [reflexivity | ].
  constructor; assumption.
Qed.

Lemma ts_for_each {A} P (l : list A) (body : A -> H unit) :
  (forall x, trace_sat P (body x)) -> trace_sat P (for_each l body).
Proof.
  intros Hbody. induction l as [ | x l IH]; simpl.
  - apply ts_ret.
  - apply ts_bind; [apply Hbody | intros; apply IH].
Qed.

Lemma ts_try_except {A} P (body : H A) (handler : exn -> H A) :
  trace_sat P body -> (forall e, trace_sat P (handler e)) -> trace_sat P (try_except body handler).
Proof.
  intros Hm Hk b t. unfold try_except.
  destruct (Hm b t) as (new & Hnew & HP).
  destruct (body b t) as [[a | e | ] t']; cbn [snd] in *.
  - exists new. split; assumption.
  - destruct (Hk e b t') as (new' & Hnew' & HP').
    exists (new ++ new')%list. rewrite Hnew', Hnew, app_assoc.
    split; [reflexivity | apply Forall_app; split; assumption].
  - exists new. split; assumption.
Qed.

Lemma ts_fetch_api (P : event -> Prop) (endpoint method : string) (data : json) :
  (forall r, P (Http r)) -> trace_sat P (fetch_api endpoint method data).
Proof.
  intros HP b t. rewrite fetch_api_run.
  destruct (gateway_request endpoint method data) as [r | ]; cbn [snd].
  - exists [Http r]. split; [reflexivity | constructor; [apply HP | constructor]].
  - exists []. rewrite app_nil_r. split; constructor.
Qed.

Lemma ts_requests_call (P : event -> Prop) (call url : string) (params body : json) :
  P (Http (mkRequest call url params body)) ->
  trace_sat P (requests_call call url params body).
Proof.
  intros HP b t. eexists. split; [reflexivity | constructor; [exact HP | constructor]].
Qed.

Section TraceOfOnResult.
Context {rt : PyRuntime}.

Lemma ts_on_result (P : event -> Prop) (result : json) (ok : H unit) :
  (forall msg, P (StError msg)) -> trace_sat P ok -> trace_sat P (on_result result ok).
Proof.
  intros HP Hok. unfold on_result.
  apply ts_bind; [apply ts_lift | intros [ | ]]; [ | exact Hok].
  apply ts_bind; [apply ts_lift | intros msg]. apply ts_emit, HP.
Qed.
End TraceOfOnResult.

(** Reduces [trace_sat P m] along the structure of [m]; what is left is
    [P] of each event. *)
Ltac trace_step :=
  first
    [ apply ts_ret | apply ts_lift | apply ts_rerun
    | apply ts_emit
    | apply ts_bind_widget
    | apply ts_widget
    | apply ts_fetch_api; intro
    | apply ts_on_result; [intro | ]
    | apply ts_bind_lift; intros ? ?
    | apply ts_bind; [ | intro ]
    | apply ts_for_each; intro
    | apply ts_try_except; [ | intro ]
    | match goal with
      | |- trace_sat _ (if ?c then _ else _) => destruct c eqn:?
      | |- trace_sat _ (match ?x with _ => _ end) => destruct x eqn:?
      | |- trace_sat _ (let _ := _ in _) => cbv zeta
      end ].

(** ** Dicts built by the script *)

Lemma lookup_dict_set {V} (k k' : string) (v : V) (d : list (string * V)) :
  lookup k' (dict_set k v d) = if k' =? k then Some v else lookup k' d.
Proof.
  induction d as [ | [k0 v0] d IH]; simpl.
  - destruct (k' =? k); reflexivity.
  - destruct (k =? k0) eqn:E; simpl.
    + apply String.eqb_eq in E. subst k0.
      destruct (k' =? k); reflexivity.
    + destruct (k' =? k0) eqn:E0.
      * apply String.eqb_eq in E0. subst k0.
        rewrite String.eqb_sym, E. reflexivity.
      * exact IH.
Qed.

Lemma keys_dict_set {V} (k : string) (v : V) (d : list (string * V)) :
  keys (dict_set k v d) = if has_key k d then keys d else (keys d ++ [k])%list.
Proof.
  unfold has_key, keys. induction d as [ | [k0 v0] d IH]; simpl; [reflexivity | ].
  destruct (k =? k0) eqn:E; simpl.
  - apply String.eqb_eq in E. subst. reflexivity.
  - rewrite IH. destruct (lookup k d); reflexivity.
Qed.

Lemma has_key_In {V} (k : string) (d : list (string * V)) :
  has_key k d = true <-> In k (keys d).
Proof.
  unfold has_key, keys. induction d as [ | [k0 v0] d IH]; simpl.
  - split; [discriminate | contradiction].
  - destruct (k =? k0) eqn:E.
    + apply String.eqb_eq in E. subst. split; auto.
    + rewrite IH. split; [auto | ]. intros [Heq | Hin]; [ | exact Hin].
      subst. rewrite String.eqb_refl in E. discriminate.
Qed.

Lemma NoDup_keys_dict_set {V} (k : string) (v : V) (d : list (string * V)) :
  NoDup (keys d) -> NoDup (keys (dict_set k v d)).
Proof.
  intros Hnd. rewrite keys_dict_set. destruct (has_key k d) eqn:E; [exact Hnd | ].
  apply NoDup_app; [exact Hnd | constructor; [intros [] | constructor] | ].
  intros x Hx [<- | []]. apply has_key_In in Hx. congruence.
Qed.

(** Assignment to a key and lookup: after [d[k] = v] the key [k] holds
    [v] and every other key holds what it held; a key already present
    keeps its place, a new one goes last, and no key is listed twice. *)
Lemma dict_set_lookup {V} (k : string) (v : V) (d : list (string * V)) :
  lookup k (dict_set k v d) = Some v
  /\ (forall k', k' <> k -> lookup k' (dict_set k v d) = lookup k' d)
  /\ keys (dict_set k v d) = (if has_key k d then keys d else (keys d ++ [k])%list)
  /\ (NoDup (keys d) -> NoDup (keys (dict_set k v d))).
Proof.
  split; [rewrite lookup_dict_set, String.eqb_refl; reflexivity | ].
  split.
  { intros k' Hk. rewrite lookup_dict_set. apply String.eqb_neq in Hk. rewrite Hk. reflexivity. }
  split; [apply keys_dict_set | apply NoDup_keys_dict_set].
Qed.

Lemma lookup_fold_dict_set {V} (k : string) (items d : list (string * V)) :
  lookup k (fold_left (fun d kv => dict_set (fst kv) (snd kv) d) items d) =
  match lookup k (rev items) with
  | Some v => Some v
  | None => lookup k d
  end.
Proof.
  revert d. induction items as [ | [k0 v0] items IH]; intros d; simpl; [reflexivity | ].
  rewrite IH. cbn [fst snd].
  assert (Happ : forall l1 l2 : list (string * V),
             lookup k (l1 ++ l2) =
             match lookup k l1 with Some v => Some v | None => lookup k l2 end).
  { induction l1 as [ | [k1 v1] l1 IH1]; intros l2; simpl; [reflexivity | ].
    destruct (k =? k1); [reflexivity | apply IH1]. }
  rewrite Happ. destruct (lookup k (rev items)); [reflexivity | ].
  simpl. rewrite lookup_dict_set. destruct (k =? k0); reflexivity.
Qed.

Lemma NoDup_keys_fold_dict_set {V} (items d : list (string * V)) :
  NoDup (keys d) ->
  NoDup (keys (fold_left (fun d kv => dict_set (fst kv) (snd kv) d) items d)).
Proof.
  revert d. induction items as [ | kv items IH]; intros d Hd; simpl; [exact Hd | ].
  apply IH. apply NoDup_keys_dict_set. exact Hd.
Qed.

Lemma lookup_Some_In {V} (k : string) (v : V) (d : list (string * V)) :
  lookup k d = Some v -> In (k, v) d.
Proof.
  induction d as [ | [k0 v0] d IH]; simpl; [discriminate | ].
  destruct (k =? k0) eqn:E.
  - apply String.eqb_eq in E. intros [= ->]. subst. left. reflexivity.
  - intros H. right. apply IH, H.
Qed.

Lemma In_lookup_Some {V} (k : string) (d : list (string * V)) :
  In k (map fst d) -> exists v, lookup k d = Some v.
Proof.
  induction d as [ | [k0 v0] d IH]; simpl; [contradiction | ].
  destruct (k =? k0) eqn:E; [eauto | ].
  intros [Heq | Hin]; [ | apply IH, Hin].
  subst. rewrite String.eqb_refl in E. discriminate.
Qed.

Lemma dict_of_items_lookup {V} (items : list (string * V)) (k : string) :
  lookup k (dict_of_items items) = lookup k (rev items).
Proof.
  unfold dict_of_items. rewrite lookup_fold_dict_set.
  destruct (lookup k (rev items)); reflexivity.
Qed.

Lemma dict_of_items_keys {V} (items : list (string * V)) (k : string) :
  In k (keys (dict_of_items items)) <-> In k (map fst items).
Proof.
  rewrite <- has_key_In. unfold has_key. rewrite dict_of_items_lookup. split.
  - destruct (lookup k (rev items)) as [v | ] eqn:E; [ | discriminate].
    intros _. apply lookup_Some_In in E. apply in_rev in E.
    change k with (fst (k, v)). apply in_map. exact E.
  - intros Hin. destruct (In_lookup_Some k (rev items)) as [v ->]; [ | reflexivity].
    rewrite map_rev. apply in_rev. rewrite rev_involutive. exact Hin.
Qed.

(** X3: a dict comprehension over items.  Each key is listed once and
    holds the value of its last item; the keys are those of the items. *)
Theorem dict_of_items_last_wins {V} (items : list (string * V)) :
  NoDup (keys (dict_of_items items))
  /\ (forall k, lookup k (dict_of_items items) = lookup k (rev items))
  /\ (forall k, In k (keys (dict_of_items items)) <-> In k (map fst items)).
Proof.
  split; [apply NoDup_keys_fold_dict_set; constructor | ].
  split; [apply dict_of_items_lookup | apply dict_of_items_keys].
Qed.

(** ** The stock selector *)

Lemma rmap_In {A B} (f : A -> res B) (l : list A) (l' : list B) (y : B) :
  rmap f l = Ret l' -> In y l' -> exists x, In x l /\ f x = Ret y.
Proof.
  revert l'. induction l as [ | x l IH]; intros l'; simpl.
  - intros [= <-] [].
  - destruct (f x) as [y0 | e] eqn:Ex; simpl; [ | discriminate].
    destruct (rmap f l) as [ys | e]; simpl; [ | discriminate].
    intros [= <-] [<- | Hin]; [eauto | ].
    destruct (IH ys eq_refl Hin) as (x' & Hx' & Hfx'). eauto.
Qed.

Lemma rmap_nil {A B} (f : A -> res B) (l : list A) :
  rmap f l = Ret [] -> l = [].
Proof.
  destruct l as [ | x l]; simpl; [reflexivity | ].
  destruct (f x); simpl; [ | discriminate].
  destruct (rmap f l); simpl; discriminate.
Qed.

Lemma choose_In (options : list string) (choice : nat) :
  options <> [] -> exists o, choose options choice = JStr o /\ In o options.
Proof.
  intros Hne. unfold choose. destruct (nth_error options choice) as [o | ] eqn:E.
  - exists o. split; [reflexivity | eapply nth_error_In; exact E].
  - destruct options as [ | o options]; [contradiction | ].
    exists o. split; [reflexivity | left; reflexivity].
Qed.

Section StockSelector.
Context {rt : PyRuntime}.

(** X4: the stock selector of the Price History and Projections screens.
    When the stock list is not empty and every stock has a [symbol] and a
    [name], the selector draws one select box and returns a stock of the
    list, whatever the choice: looking the chosen label up cannot fail.
    Of several stocks with the same label it returns the last. *)
Theorem select_stock_returns_listed_stock
    (stocks : json) (items : list json) (entries : list (string * json))
    (choice : nat) (b : backend) (t : list event) :
  py_iter stocks = Ret items ->
  items <> [] ->
  rmap (fun s => rbind (stock_label s) (fun label => Ret (label, s))) items = Ret entries ->
  exists label stock,
    select_stock stocks choice b t =
    (Done stock, (t ++ [StWidget "selectbox" "Select Stock"])%list)
    /\ In stock items
    /\ stock_label stock = Ret label
    /\ lookup label (rev entries) = Some stock.
Proof.
  intros Hiter Hne Hentries.
  assert (Hkeys : keys (dict_of_items entries) <> []).
  { intros Hnil. destruct entries as [ | [k v] entries].
    - apply rmap_nil in Hentries. contradiction.
    - assert (Hin : In k (keys (dict_of_items ((k, v) :: entries))))
        by (apply dict_of_items_keys; left; reflexivity).
      rewrite Hnil in Hin. contradiction. }
  destruct (choose_In choice Hkeys) as (label & Hchoose & Hin).
  assert (Hlook : exists stock, lookup label (dict_of_items entries) = Some stock).
  { apply has_key_In in Hin. unfold has_key in Hin.
    destruct (lookup label (dict_of_items entries)) as [stock | ]; [eauto | discriminate]. }
  destruct Hlook as [stock Hstock].
  exists label, stock. split.
  - unfold select_stock, st_selectbox, widget, bind, lift, emit, ret.
    rewrite Hiter, Hentries. cbv zeta. rewrite Hchoose. cbn [options_getitem].
    rewrite Hstock. reflexivity.
  - rewrite dict_of_items_lookup in Hstock.
    assert (Hpair : In (label, stock) entries)
      by (apply in_rev, lookup_Some_In; exact Hstock).
    destruct (rmap_In _ _ _ Hentries Hpair) as (s & Hs & Hlabel).
    destruct (stock_label s) as [l | e]; simpl in Hlabel; [ | discriminate].
    injection Hlabel as -> ->.
    split; [exact Hs | ]. split; [ | exact Hstock].
    destruct (rmap_In _ _ _ Hentries Hpair) as (s' & _ & Hl').
    destruct (stock_label s') as [l' | e'] eqn:E'; simpl in Hl'; [ | discriminate].
    injection Hl' as -> ->. exact E'.
Qed.
End StockSelector.

Lemma select_stock_returns_listed_stock_witness :
  exists label stock,
    select_stock (rt := example_runtime) (JList [apple; apple]) 7
                 (serve (example_routes (ok_response apple_stats))) []
    = (Done stock, [StWidget "selectbox" "Select Stock"])
    /\ In stock [apple; apple]
    /\ stock_label (rt := example_runtime) stock = Ret label
    /\ lookup label (rev [("AAPL - Apple Inc.", apple); ("AAPL - Apple Inc.", apple)]) = Some stock.
Proof.
  apply (@select_stock_returns_listed_stock example_runtime (JList [apple; apple])
           [apple; apple] [("AAPL - Apple Inc.", apple); ("AAPL - Apple Inc.", apple)] 7
           (serve (example_routes (ok_response apple_stats))) []).
  - reflexivity.
  - discriminate.
  - reflexivity.
Defined.

(** ** The add sub-flows *)

Section AddStock.
Context {rt : PyRuntime}.

(** X5: Manual Add needs both a symbol and a name.  When the form is
    submitted with either one empty, the sub-flow shows the warning and
    sends nothing; when the form is not submitted it only draws the
    form. *)
Theorem manual_add_requires_symbol_and_name (ui : sm_state) (b : backend) (t : list event) :
  let form := [StMarkdown "### Manual Add";
               StWidget "text_input" "Symbol";
               StWidget "text_input" "Company Name";
               StWidget "text_input" "Sector (optional)";
               StWidget "text_input" "Industry (optional)";
               StWidget "text_input" "Exchange (optional)";
               StWidget "form_submit_button" "Add Stock"] in
  (sm_add_stock ui = false -> manual_add ui b t = (Done tt, (t ++ form)%list))
  /\ (sm_add_stock ui = true ->
      sm_m_symbol ui = "" \/ sm_m_name ui = "" ->
      manual_add ui b t =
      (Done tt, (t ++ form ++ [StWarning "Symbol and Name are required"])%list)).
Proof.
  cbv zeta. split.
  - intros Hsub. unfold manual_add, widget, bind, emit, ret. rewrite Hsub. cbn.
    rewrite <- !app_assoc. reflexivity.
  - intros Hsub Hempty. unfold manual_add, widget, bind, emit, ret. rewrite Hsub.
    assert (Htest : negb (sm_m_symbol ui =? "") && negb (sm_m_name ui =? "") = false).
    { destruct Hempty as [-> | ->]; [reflexivity | ]. apply andb_false_r. }
    rewrite Htest. cbn. rewrite <- !app_assoc. reflexivity.
Qed.

Lemma quick_add_run (ui : sm_state) (b : backend) (t : list event) :
  sm_fetch_add ui = true -> sm_symbol ui <> "" ->
  quick_add ui b t =
  (let result := gateway_result (b (List.length (http_calls t))
                                   (quick_add_request (sm_symbol ui))) in
   on_result result
     (sym <- lift (py_getitem result "symbol") ;;
      name <- lift (py_getitem result "name") ;;
      emit (StSuccess ("Added " ++ py_str sym ++ " - " ++ py_str name)))
     b (t ++ [StMarkdown "### Quick Add (Fetch from Yahoo Finance)";
              StWidget "text_input" "Stock Symbol";
              StWidget "button" "Fetch & Add Stock";
              StSpinner ("Fetching " ++ upper (sm_symbol ui) ++ "...");
              Http (quick_add_request (sm_symbol ui))])%list).
Proof.
  intros Hclick Hsym. apply String.eqb_neq in Hsym.
  unfold quick_add, widget, bind at 1 2 3 4 5, emit, ret. rewrite Hclick, Hsym. cbn [negb].
  unfold bind at 1 2. rewrite fetch_api_run.
  cbn [gateway_request String.eqb Ascii.eqb Bool.eqb]. cbv iota zeta.
  repeat (rewrite http_calls_app; cbn [http_calls]). rewrite !app_nil_r.
  fold (quick_add_request (sm_symbol ui)). rewrite <- !app_assoc. reflexivity.
Qed.

(** X6: what Quick Add reports.  On a result without the key [error] the
    success message names the symbol and the name of the result, not the
    text typed; a result that lacks one of the two makes the handler
    raise [KeyError], and no success is reported. *)
Theorem quick_add_reports_created_stock
    (ui : sm_state) (b : backend) (t : list event) (d : list (string * json)) :
  sm_fetch_add ui = true -> sm_symbol ui <> "" ->
  gateway_result (b (List.length (http_calls t)) (quick_add_request (sm_symbol ui))) = JDict d ->
  lookup "error" d = None ->
  let shown := (t ++ [StMarkdown "### Quick Add (Fetch from Yahoo Finance)";
                      StWidget "text_input" "Stock Symbol";
                      StWidget "button" "Fetch & Add Stock";
                      StSpinner ("Fetching " ++ upper (sm_symbol ui) ++ "...");
                      Http (quick_add_request (sm_symbol ui))])%list in
  quick_add ui b t =
  match lookup "symbol" d, lookup "name" d with
  | Some sym, Some name =>
      (Done tt, (shown ++ [StSuccess ("Added " ++ py_str sym ++ " - " ++ py_str name)])%list)
  | Some _, None => (Failed (key_error "name"), shown)
  | None, _ => (Failed (key_error "symbol"), shown)
  end.
Proof.
  intros Hclick Hsym Hres Herr. cbv zeta.
  rewrite quick_add_run by assumption. cbv zeta. rewrite Hres.
  rewrite on_result_ok by (cbn; unfold has_key; rewrite Herr; reflexivity).
  unfold bind, lift, emit. cbn [py_getitem].
  destruct (lookup "symbol" d) as [sym | ]; [ | reflexivity].
  destruct (lookup "name" d) as [name | ]; reflexivity.
Qed.
End AddStock.

Lemma manual_add_requires_symbol_and_name_witness :
  manual_add (rt := example_runtime)
             (mkSm "" false "msft" "" "" "" "" true (fun _ => false) 0 0 false
                   (mkDate 2024 1 1) (mkDate 2024 1 31) false)
             (serve (example_routes (ok_response apple_stats))) []
  = (Done tt, [StMarkdown "### Manual Add";
               StWidget "text_input" "Symbol";
               StWidget "text_input" "Company Name";
               StWidget "text_input" "Sector (optional)";
               StWidget "text_input" "Industry (optional)";
               StWidget "text_input" "Exchange (optional)";
               StWidget "form_submit_button" "Add Stock";
               StWarning "Symbol and Name are required"]).
Proof.
  apply (proj2 (@manual_add_requires_symbol_and_name example_runtime
                  (mkSm "" false "msft" "" "" "" "" true (fun _ => false) 0 0 false
                        (mkDate 2024 1 1) (mkDate 2024 1 31) false)
                  (serve (example_routes (ok_response apple_stats))) [])).
  - reflexivity.
  - right. reflexivity.
Defined.

(** Quick Add pressed with "aapl" typed. *)
Lemma quick_add_reports_created_stock_witness :
  quick_add (rt := example_runtime)
            (mkSm "aapl" true "" "" "" "" "" false (fun _ => false) 0 0 false
                  (mkDate 2024 1 1) (mkDate 2024 1 31) false)
            (serve (example_routes (ok_response apple_stats))) []
  = (Done tt, [StMarkdown "### Quick Add (Fetch from Yahoo Finance)";
               StWidget "text_input" "Stock Symbol";
               StWidget "button" "Fetch & Add Stock";
               StSpinner "Fetching AAPL...";
               Http (mkRequest "post" "http://localhost:8000/api/v1/stocks/fetch/AAPL"
                               JNull JNull);
               StSuccess "Added AAPL - Apple Inc."]).
Proof.
  exact (@quick_add_reports_created_stock example_runtime
           (mkSm "aapl" true "" "" "" "" "" false (fun _ => false) 0 0 false
                 (mkDate 2024 1 1) (mkDate 2024 1 31) false)
           (serve (example_routes (ok_response apple_stats))) []
           [("id", JInt 1); ("symbol", JStr "AAPL"); ("name", JStr "Apple Inc.");
            ("sector", JStr "Technology"); ("industry", JStr "Consumer Electronics");
            ("exchange", JStr "NASDAQ"); ("is_active", JBool true)]
           eq_refl ltac:(discriminate) eq_refl eq_refl).
Defined.

(** ** Price History without data *)

Section NoPriceData.
Context {rt : PyRuntime}.

(** X7: Price History without price data.  When the price fetch gives a
    result that passes the error test and is empty (an empty list, say),
    the handler shows the hint to fetch prices and returns: the
    statistics are not requested and nothing is charted. *)
Theorem price_history_without_data
    (ui : ph_state) (b : backend) (stocks stock id prices : json) (t : list event) :
  gateway_result (b 0 stocks_request) = stocks ->
  py_in "error" stocks = Ret false ->
  truthy stocks = true ->
  select_stock stocks (ph_selected ui) b [StHeader "Price History"; Http stocks_request]
  = (Done stock, t) ->
  py_getitem stock "id" = Ret id ->
  gateway_result (b 1 (prices_request ui id)) = prices ->
  py_in "error" prices = Ret false ->
  truthy prices = false ->
  show_price_history ui b [] =
  (Done tt, (t ++ [StWidget "date_input" "Start Date"; StWidget "date_input" "End Date";
                   StWidget "number_input" "Max Records";
                   Http (prices_request ui id);
                   StWarning
                     "No price data found. Fetch historical prices from Stock Management."])%list)
  /\ http_calls (snd (show_price_history ui b [])) = [stocks_request; prices_request ui id].
Proof.
  intros Hg Hin Htruthy Hsel Hid Hprices Hin' Hempty.
  assert (Hcalls : http_calls t = [stocks_request]).
  { change t with (snd (Done stock, t)). rewrite <- Hsel.
    rewrite quiet_calls by apply select_stock_quiet. reflexivity. }
  assert (Hrun : show_price_history ui b [] =
    (Done tt, (t ++ [StWidget "date_input" "Start Date"; StWidget "date_input" "End Date";
                     StWidget "number_input" "Max Records";
                     Http (prices_request ui id);
                     StWarning
                       "No price data found. Fetch historical prices from Stock Management."])%list)).
  { unfold show_price_history. unfold bind at 1, emit at 1.
    erewrite bind_done by (apply fetch_stocks_run; reflexivity).
    rewrite Hg, on_result_ok by exact Hin. rewrite Htruthy. cbn [negb app].
    erewrite bind_done by exact Hsel.
    unfold widget, bind at 1 2 3 4 5 6 7, emit, ret, lift. rewrite Hid.
    unfold bind at 1. rewrite fetch_api_run.
    cbn [gateway_request String.eqb Ascii.eqb Bool.eqb]. cbv iota.
    repeat (rewrite http_calls_app; cbn [http_calls]). rewrite Hcalls. cbn [app List.length].
    fold (prices_request ui id). rewrite Hprices, on_result_ok by exact Hin'.
    rewrite Hempty. cbn [negb]. rewrite <- !app_assoc. reflexivity. }
  split; [exact Hrun | ]. rewrite Hrun. cbn [snd].
  rewrite http_calls_app, Hcalls. reflexivity.
Qed.
End NoPriceData.

Lemma price_history_without_data_witness :
  http_calls (snd (show_price_history (rt := example_runtime) idle_ph
                     (serve [("http://localhost:8000/api/v1/stocks/",
                              ok_response (JList [apple]));
                             ("http://localhost:8000/api/v1/prices/1",
                              ok_response (JList []))]) []))
  = [stocks_request; prices_request (rt := example_runtime) idle_ph (JInt 1)].
Proof.
  exact (proj2 (@price_history_without_data example_runtime idle_ph
                  (serve [("http://localhost:8000/api/v1/stocks/",
                           ok_response (JList [apple]));
                          ("http://localhost:8000/api/v1/prices/1",
                           ok_response (JList []))])
                  (JList [apple]) apple (JInt 1) (JList [])
                  [StHeader "Price History"; Http stocks_request;
                   StWidget "selectbox" "Select Stock"]
                  eq_refl eq_refl eq_refl eq_refl eq_refl eq_refl eq_refl eq_refl)).
Defined.

(** ** Navigation and Settings *)

Section Navigation.
Context {rt : PyRuntime}.

(** X8: navigation.  A render draws the title, the sidebar title and the
    page selector, then runs the handler of the selected page and nothing
    else. *)
Theorem main_runs_selected_handler (ui : ui_state) (b : backend) (t : list event) :
  let t' := (t ++ [StTitle "📈 Stock Market Finance Application";
                   StSidebarTitle "Navigation";
                   StWidget "selectbox" "Choose a page"])%list in
  (ui_page ui = 0 -> main ui b t = show_dashboard b t')
  /\ (ui_page ui = 1 -> main ui b t = show_stock_management (ui_stock_management ui) b t')
  /\ (ui_page ui = 2 -> main ui b t = show_price_history (ui_price_history ui) b t')
  /\ (ui_page ui = 3 -> main ui b t = show_projections (ui_projections ui) b t')
  /\ (ui_page ui = 4 -> main ui b t = show_settings ui b t').
Proof.
  cbv zeta. unfold main, st_selectbox, widget, bind at 1 2 3 4, emit, ret.
  repeat split; intros ->; cbn; rewrite <- !app_assoc; reflexivity.
Qed.

End Navigation.

(** X9: the health probe of the Settings screen.  The handler never
    fails.  Without a press of the button it sends nothing; with one it
    sends one GET to [/health], outside the versioned base URL, and
    reports: up on status 200, an error on any other status, and "cannot
    connect" on any exception of the library. *)
Theorem show_settings_health_probe (ui : ui_state) (b : backend) (t : list event) :
  let page := [StHeader "Settings"; StInfo "API Configuration";
               StCode "Backend URL: http://localhost:8000/api/v1";
               StSubheader "System Status";
               StWidget "button" "Check API Health"] in
  (ui_check_health ui = false -> show_settings ui b t = (Done tt, (t ++ page)%list))
  /\ (ui_check_health ui = true ->
      show_settings ui b t =
      (Done tt,
       (t ++ page ++
          [Http health_request;
           match b (List.length (http_calls t)) health_request with
           | Ret response =>
               if (status_code response =? 200)%Z
               then StSuccess "✅ Backend API is running"
               else StError (JStr "❌ Backend API returned an error")
           | Raise _ => StError (JStr "❌ Cannot connect to Backend API")
           end])%list)).
Proof.
  cbv zeta. unfold show_settings, widget, bind at 1 2 3 4 5 6, emit at 1 2 3 4 5, ret. split.
  - intros ->. cbn. rewrite <- !app_assoc. reflexivity.
  - intros ->. unfold try_except, bind, requests_call, emit.
    repeat (rewrite http_calls_app; cbn [http_calls]). rewrite !app_nil_r.
    fold health_request.
    destruct (b (List.length (http_calls t)) health_request) as [response | e].
    + destruct (status_code response =? 200)%Z; cbn; rewrite <- !app_assoc; reflexivity.
    + cbn. rewrite <- !app_assoc. reflexivity.
Qed.

Lemma main_runs_selected_handler_witness :
  main (rt := example_runtime) (mkUi 4 idle_sm idle_ph idle_pj false)
       (serve (example_routes (ok_response apple_stats))) []
  = (Done tt, [StTitle "📈 Stock Market Finance Application";
               StSidebarTitle "Navigation";
               StWidget "selectbox" "Choose a page";
               StHeader "Settings"; StInfo "API Configuration";
               StCode "Backend URL: http://localhost:8000/api/v1";
               StSubheader "System Status";
               StWidget "button" "Check API Health"]).
Proof.
  rewrite (proj2 (proj2 (proj2 (proj2
             (@main_runs_selected_handler example_runtime
                (mkUi 4 idle_sm idle_ph idle_pj false)
                (serve (example_routes (ok_response apple_stats))) [])))) eq_refl).
  reflexivity.
Defined.

Lemma show_settings_health_probe_witness :
  show_settings (mkUi 4 idle_sm idle_ph idle_pj true)
                (library_raises (mkExn ConnectionError "Connection refused")) []
  = (Done tt, [StHeader "Settings"; StInfo "API Configuration";
               StCode "Backend URL: http://localhost:8000/api/v1";
               StSubheader "System Status";
               StWidget "button" "Check API Health";
               Http health_request;
               StError (JStr "❌ Cannot connect to Backend API")]).
Proof.
  exact (proj2 (@show_settings_health_probe
                  (mkUi 4 idle_sm idle_ph idle_pj true)
                  (library_raises (mkExn ConnectionError "Connection refused")) [])
               eq_refl).
Defined.

(** ** Dashboard *)

Lemma ForallOrdPairs_snoc {A} (R : A -> A -> Prop) (l : list A) (x : A) :
  ForallOrdPairs R l -> Forall (fun y => R y x) l -> ForallOrdPairs R (l ++ [x]).
Proof.
  induction 1 as [ | a l Ha Hl IH]; intros Hx; simpl.
  - constructor; constructor.
  - inversion Hx as [ | ? ? Hax Hx']; subst. constructor.
    + apply Forall_app. split; [exact Ha | constructor; [exact Hax | constructor]].
    + apply IH, Hx'.
Qed.

Lemma existsb_false_Forall {A} (f : A -> bool) (l : list A) :
  existsb f l = false -> Forall (fun y => f y = false) l.
Proof.
  induction l as [ | a l IH]; simpl; [constructor | ].
  intros H. apply orb_false_elim in H as [Ha Hl]. constructor; auto.
Qed.

Section Dashboard.
Context {rt : PyRuntime}.

Lemma set_add_cases (x : json) (s s' : list json) :
  set_add x s = Ret s' ->
  (existsb (same_element x) s = true /\ s' = s)
  \/ (existsb (same_element x) s = false /\ s' = (s ++ [x])%list).
Proof.
  unfold set_add.
  destruct x; try discriminate;
    (destruct (existsb _ s) eqn:E; intros [= <-]; [left | right]; split; reflexivity).
Qed.

Lemma same_element_refl_added (x : json) (s s' : list json) :
  set_add x s = Ret s' -> existsb (same_element x) s' = true.
Proof.
  intros Hadd. destruct (set_add_cases _ _ Hadd) as [[E ->] | [E ->]]; [exact E | ].
  rewrite existsb_app. simpl. rewrite orb_false_r.
  assert (Hrefl : same_element x x = true).
  { unfold set_add in Hadd. destruct x as [ | [ | ] | z | f | s0 | | ]; try discriminate;
      simpl; try reflexivity.
    - apply Z.eqb_refl.
    - destruct f as [s1 | s1 | | s1 m e]; simpl; try reflexivity;
        unfold SFeqb, SFcompare; destruct s1;
        rewrite ?Z.compare_refl, ?Pos.compare_refl; try reflexivity;
        rewrite ?CompOpp_iff; simpl; rewrite ?Pos.compare_refl; reflexivity.
    - apply String.eqb_refl. }
  rewrite Hrefl. apply orb_true_r.
Qed.

Lemma sector_set_spec (items seen sectors : list json) :
  sector_set items seen = Ret sectors ->
  (List.length sectors <= List.length seen + List.length items)%nat
  /\ (distinct_elements seen -> distinct_elements sectors)
  /\ (forall x, In x sectors ->
                In x seen
                \/ (truthy x = true /\ exists s, In s items /\ py_get s "sector" JNull = Ret x))
  /\ (forall y, existsb (same_element y) seen = true -> existsb (same_element y) sectors = true)
  /\ (forall s x, In s items -> py_get s "sector" JNull = Ret x -> truthy x = true ->
                  existsb (same_element x) sectors = true).
Proof.
  revert seen sectors. induction items as [ | s items IH]; intros seen sectors; simpl.
  - intros [= <-]. repeat split; auto; try lia; try (intros s x []); try contradiction.
  - destruct (py_get s "sector" JNull) as [sector | e] eqn:Eget; simpl; [ | discriminate].
    destruct (truthy sector) eqn:Etruthy.
    + destruct (set_add sector seen) as [seen' | e] eqn:Eadd; simpl; [ | discriminate].
      intros Hrec. destruct (IH _ _ Hrec) as (Hlen & Hdist & Hin & Hmono & Hall).
      pose proof (same_element_refl_added _ _ Eadd) as Hself.
      destruct (set_add_cases _ _ Eadd) as [[E ->] | [E ->]].
      * split; [lia | ]. split; [exact Hdist | ]. split.
        { intros x Hx. destruct (Hin x Hx) as [Hs | (Ht & s' & Hs' & Hg)]; [left; exact Hs | ].
          right. split; [exact Ht | ]. exists s'. split; [right; exact Hs' | exact Hg]. }
        split; [exact Hmono | ].
        intros s0 x [<- | Hs0] Hg Ht; [ | eapply Hall; eassumption].
        rewrite Eget in Hg. injection Hg as <-. apply Hmono, E.
      * rewrite length_app in Hlen. simpl in Hlen. split; [lia | ]. split.
        { intros Hseen. apply Hdist. apply ForallOrdPairs_snoc; [exact Hseen | ].
          apply existsb_false_Forall, E. }
        split.
        { intros x Hx. destruct (Hin x Hx) as [Hs | (Ht & s' & Hs' & Hg)].
          - apply in_app_or in Hs as [Hs | [<- | []]]; [left; exact Hs | ].
            right. split; [exact Etruthy | ]. exists s. split; [left; reflexivity | exact Eget].
          - right. split; [exact Ht | ]. exists s'. split; [right; exact Hs' | exact Hg]. }
        split.
        { intros y Hy. apply Hmono. rewrite existsb_app, Hy. reflexivity. }
        intros s0 x [<- | Hs0] Hg Ht; [ | eapply Hall; eassumption].
        rewrite Eget in Hg. injection Hg as <-. apply Hmono, Hself.
    + intros Hrec. destruct (IH _ _ Hrec) as (Hlen & Hdist & Hin & Hmono & Hall).
      split; [lia | ]. split; [exact Hdist | ]. split.
      { intros x Hx. destruct (Hin x Hx) as [Hs | (Ht & s' & Hs' & Hg)]; [left; exact Hs | ].
        right. split; [exact Ht | ]. exists s'. split; [right; exact Hs' | exact Hg]. }
      split; [exact Hmono | ].
      intros s0 x [<- | Hs0] Hg Ht; [ | eapply Hall; eassumption].
      rewrite Eget in Hg. injection Hg as <-. congruence.
Qed.

(** X10: the sector count of the Dashboard.  The set of sectors holds
    each sector once: no two of its elements are equal, every element is
    the non-empty sector of some stock, every non-empty sector of a stock
    is in it, and it is never larger than the stock list. *)
Theorem sector_set_counts_distinct_sectors (items sectors : list json) :
  sector_set items [] = Ret sectors ->
  (List.length sectors <= List.length items)%nat
  /\ distinct_elements sectors
  /\ (forall x, In x sectors ->
                truthy x = true /\ exists s, In s items /\ py_get s "sector" JNull = Ret x)
  /\ (forall s x, In s items -> py_get s "sector" JNull = Ret x -> truthy x = true ->
                  existsb (same_element x) sectors = true).
Proof.
  intros Hset. destruct (sector_set_spec _ _ Hset) as (Hlen & Hdist & Hin & _ & Hall).
  split; [exact Hlen | ]. split; [apply Hdist; constructor | ]. split; [ | exact Hall].
  intros x Hx. destruct (Hin x Hx) as [[] | H]. exact H.
Qed.

Lemma not_error_in_records (records : list (list (string * json))) :
  py_in "error" (JList (map JDict records)) = Ret false.
Proof.
  simpl. f_equal. induction records as [ | r records IH]; simpl; [reflexivity | exact IH].
Qed.

Lemma active_stocks_records (records : list (list (string * json))) :
  active_stocks (map JDict records) = Ret (map JDict (filter is_active records)).
Proof.
  induction records as [ | r records IH]; simpl; [reflexivity | ].
  rewrite IH. simpl. unfold is_active. destruct (truthy _); reflexivity.
Qed.

(** X11: the Dashboard without stocks.  A result that passes the error
    test and is empty gets the call to action and nothing else: no
    metric, no table, no further call. *)
Theorem dashboard_without_stocks (b : backend) (stocks : json) :
  gateway_result (b 0 stocks_request) = stocks ->
  py_in "error" stocks = Ret false ->
  truthy stocks = false ->
  show_dashboard b [] =
  (Done tt, [StHeader "Dashboard"; Http stocks_request;
             StInfo "No stocks in database. Add some stocks from the Stock Management page."]).
Proof.
  intros Hg Hin Hempty. unfold show_dashboard. unfold bind at 1, emit at 1.
  erewrite bind_done by (apply fetch_stocks_run; reflexivity).
  rewrite Hg. unfold bind, lift, emit. rewrite Hin, Hempty. reflexivity.
Qed.

(** X12: the Dashboard on a list of stock records.  It makes the one call,
    then shows the number of records as total, the size of the sector set
    and the number of records whose [is_active] is true, neither larger
    than the total, and the table of the records restricted to those of
    the six display columns that the records have. *)
Theorem dashboard_metrics
    (b : backend) (records : list (list (string * json))) (sectors : list json) :
  records <> [] ->
  gateway_result (b 0 stocks_request) = JList (map JDict records) ->
  sector_set (map JDict records) [] = Ret sectors ->
  let df := records_frame records in
  let display_cols := filter (fun c => existsb (String.eqb c) (columns df)) DISPLAY_COLS in
  show_dashboard b [] =
  (Done tt,
   [StHeader "Dashboard"; Http stocks_request;
    StMetric "Total Stocks" (JInt (Z.of_nat (List.length records))) None;
    StMetric "Sectors" (JInt (Z.of_nat (List.length sectors))) None;
    StMetric "Active Stocks"
             (JInt (Z.of_nat (List.length (filter is_active records)))) None;
    StDivider; StSubheader "Your Stocks"]
   ++ (if df_empty df then [] else [StDataframe (select_columns display_cols df)]))%list
  /\ (List.length sectors <= List.length records)%nat
  /\ (List.length (filter is_active records) <= List.length records)%nat
  /\ (forall c, In c display_cols -> In c DISPLAY_COLS /\ existsb (has_key c) records = true).
Proof.
  intros Hne Hg Hset. cbv zeta. split; [ | split; [ | split]].
  - unfold show_dashboard. unfold bind at 1, emit at 1.
    erewrite bind_done by (apply fetch_stocks_run; reflexivity).
    rewrite Hg. unfold bind at 1, lift at 1. rewrite not_error_in_records.
    assert (Htruthy : truthy (JList (map JDict records)) = true)
      by (destruct records; [contradiction | reflexivity]).
    rewrite Htruthy. cbn [negb].
    unfold bind, lift, emit. cbn [py_len py_iter].
    rewrite Hset, active_stocks_records. unfold DataFrame. rewrite as_records_dicts.
    fold (records_frame records). rewrite !length_map.
    destruct (df_empty (records_frame records)); reflexivity.
  - pose proof (sector_set_spec _ _ Hset) as (Hlen & _). rewrite length_map in Hlen.
    simpl in Hlen. exact Hlen.
  - apply filter_length_le.
  - intros c Hc. apply filter_In in Hc as [Hin Hcol]. split; [exact Hin | ].
    unfold records_frame in Hcol. cbn [columns] in Hcol.
    rewrite record_columns_has in Hcol. exact Hcol.
Qed.
End Dashboard.

Lemma sector_set_counts_distinct_sectors_witness :
  (List.length [JStr "Technology"] <= List.length [apple; apple; JDict [("symbol", JStr "X")]])%nat
  /\ distinct_elements [JStr "Technology"].
Proof.
  destruct (@sector_set_counts_distinct_sectors
              [apple; apple; JDict [("symbol", JStr "X")]] [JStr "Technology"] eq_refl)
    as (Hlen & Hdist & _).
  split; [exact Hlen | exact Hdist].
Defined.

Lemma dashboard_without_stocks_witness :
  show_dashboard (rt := example_runtime)
                 (serve [("http://localhost:8000/api/v1/stocks/", ok_response (JList []))]) []
  = (Done tt, [StHeader "Dashboard"; Http stocks_request;
               StInfo "No stocks in database. Add some stocks from the Stock Management page."]).
Proof.
  exact (@dashboard_without_stocks example_runtime
           (serve [("http://localhost:8000/api/v1/stocks/", ok_response (JList []))])
           (JList []) eq_refl eq_refl eq_refl).
Defined.

Lemma dashboard_metrics_witness :
  (List.length [JStr "Technology"] <= 2)%nat
  /\ fst (show_dashboard (rt := example_runtime)
                         (serve [("http://localhost:8000/api/v1/stocks/",
                                  ok_response (JList [apple; apple]))]) []) = Done tt.
Proof.
  destruct (@dashboard_metrics example_runtime
              (serve [("http://localhost:8000/api/v1/stocks/",
                       ok_response (JList [apple; apple]))])
              [[("id", JInt 1); ("symbol", JStr "AAPL"); ("name", JStr "Apple Inc.");
                ("sector", JStr "Technology"); ("industry", JStr "Consumer Electronics");
                ("exchange", JStr "NASDAQ"); ("is_active", JBool true)];
               [("id", JInt 1); ("symbol", JStr "AAPL"); ("name", JStr "Apple Inc.");
                ("sector", JStr "Technology"); ("industry", JStr "Consumer Electronics");
                ("exchange", JStr "NASDAQ"); ("is_active", JBool true)]]
              [JStr "Technology"] ltac:(discriminate) eq_refl eq_refl)
    as (Hrun & Hlen & _).
  split; [exact Hlen | ]. rewrite Hrun. reflexivity.
Defined.

(** ** Deleting a stock *)

Section DeleteStock.
Context {rt : PyRuntime}.

(** X13: the delete button of the stock list.  Pressing the button of the
    first stock sends one DELETE for its id, without payload.  When the
    result passes the error test the handler reports the deletion and
    asks for a rerun: the stocks after it are not drawn.  When the result
    is an error the handler shows nothing for it: the failure is
    silent. *)
Theorem delete_reruns_or_fails_silently
    (ui : sm_state) (b : backend) (t : list event)
    (d : list (string * json)) (rest : list json) (sym name id : json) :
  gateway_result (b (List.length (http_calls t)) stocks_request) = JList (JDict d :: rest) ->
  existsb (is_str "error") rest = false ->
  lookup "symbol" d = Some sym -> lookup "name" d = Some name -> lookup "id" d = Some id ->
  sm_delete ui ("delete_" ++ py_str id) = true ->
  let result := gateway_result (b (S (List.length (http_calls t))) (delete_request id)) in
  let shown := (t ++ [StSubheader "Your Stocks"; Http stocks_request]
                  ++ stock_card d sym name ++ [Http (delete_request id)])%list in
  (py_in "error" result = Ret false ->
   view_stocks ui b t = (Rerun, (shown ++ [StSuccess "Deleted!"])%list))
  /\ (py_in "error" result = Ret true -> rest = [] ->
      view_stocks ui b t = (Done tt, shown)).
Proof.
  intros Hg Hrest Hsym Hname Hid Hclick. cbv zeta.
  unfold view_stocks. run.
  rewrite http_calls_app. cbn [http_calls]. rewrite app_nil_r.
  fold stocks_request. rewrite Hg.
  rewrite on_result_ok by (cbn; rewrite Hrest; reflexivity).
  cbn [truthy negb py_iter for_each]. run.
  match goal with |- context [for_each _ ?f] => set (body := f) end.
  assert (Hfirst : forall k : unit -> H unit,
             bind (body (JDict d)) k b
                  ((t ++ [StSubheader "Your Stocks"]) ++ [Http stocks_request])%list =
             bind (is_error <- lift (py_in "error"
                                       (gateway_result (b (S (List.length (http_calls t)))
                                                          (delete_request id)))) ;;
                   if negb is_error then emit (StSuccess "Deleted!") ;; st_rerun else ret tt)
                  k b
                  (t ++ [StSubheader "Your Stocks"; Http stocks_request]
                     ++ stock_card d sym name ++ [Http (delete_request id)])%list).
  { intros k. unfold body. unfold stock_label. cbn [py_getitem py_get rbind].
    rewrite Hsym, Hname, Hid. cbn [rbind]. run. rewrite Hclick. run.
    repeat (rewrite http_calls_app; cbn [http_calls]). rewrite !app_nil_r.
    rewrite length_app. cbn [List.length]. rewrite Nat.add_1_r.
    fold (delete_request id). unfold stock_card, is_active. cbv zeta.
    rewrite <- !app_assoc. cbn [app]. reflexivity. }
  cbn [for_each]. rewrite Hfirst. split.
  - intros Hin. apply run_rerun. unfold bind, lift, emit, st_rerun. rewrite Hin. cbn.
    rewrite <- !app_assoc. reflexivity.
  - intros Hin ->. unfold bind, lift, ret. rewrite Hin. reflexivity.
Qed.
End DeleteStock.

Lemma delete_reruns_or_fails_silently_witness :
  fst (view_stocks (rt := example_runtime)
         (mkSm "" false "" "" "" "" "" false (fun _ => true) 0 0 false
               (mkDate 2024 1 1) (mkDate 2024 1 31) false)
         (serve [("http://localhost:8000/api/v1/stocks/", ok_response (JList [apple; apple]));
                 ("http://localhost:8000/api/v1/stocks/1",
                  Ret (mkResponse 204 (Raise (mkExn JSONDecodeError "Expecting value"))))])
         []) = Rerun.
Proof.
  rewrite (proj1 (@delete_reruns_or_fails_silently example_runtime
             (mkSm "" false "" "" "" "" "" false (fun _ => true) 0 0 false
                   (mkDate 2024 1 1) (mkDate 2024 1 31) false)
             (serve [("http://localhost:8000/api/v1/stocks/", ok_response (JList [apple; apple]));
                     ("http://localhost:8000/api/v1/stocks/1",
                      Ret (mkResponse 204 (Raise (mkExn JSONDecodeError "Expecting value"))))])
             []
             [("id", JInt 1); ("symbol", JStr "AAPL"); ("name", JStr "Apple Inc.");
              ("sector", JStr "Technology"); ("industry", JStr "Consumer Electronics");
              ("exchange", JStr "NASDAQ"); ("is_active", JBool true)]
             [apple] (JStr "AAPL") (JStr "Apple Inc.") (JInt 1)
             eq_refl eq_refl eq_refl eq_refl eq_refl eq_refl) eq_refl).
  reflexivity.
Defined.

(** ** The Projections screen *)

Section Projections.
Context {rt : PyRuntime}.

Ltac pick :=
  first [ reflexivity | (eexists; reflexivity) | (left; pick) | (right; pick) ].

Ltac calls_of_handler :=
  repeat first
    [ apply sat_bind_widget
    | apply sat_bind_ret
    | apply sat_fetch_api; intros ? [= <-]; pick
    | apply on_result_sat
    | calls_step ].

(** X14: the trend indicator.  When the projection of the selected stock
    arrives with a text as its [trend], the projection tab draws, right
    after the last price, the "Trend" metric of that trend: its
    capitalized text, with the rising chart when the trend is exactly
    "bullish" and the falling chart for any other trend; nothing else
    the tab draws is a "Trend" metric. *)
Theorem trend_glyph
    (ui : pj_state) (stock id projection last_price : json) (last_text trend : string)
    (b : backend) (t : list event) :
  pj_proj_btn ui = true ->
  py_getitem stock "id" = Ret id ->
  gateway_result (b (List.length (http_calls t)) (projection_request ui id)) = projection ->
  py_in "error" projection = Ret false ->
  py_getitem projection "last_price" = Ret last_price ->
  py_format_fixed 2 last_price = Ret last_text ->
  py_getitem projection "trend" = Ret (JStr trend) ->
  exists outcome rest,
    price_projection ui stock b t =
    (outcome,
     (t ++ [StSubheader "Price Projection";
            StWidget "slider" "Days to Project";
            StWidget "slider" "Historical Days for Trend";
            StWidget "button" "Calculate Projection";
            Http (projection_request ui id);
            StMetric "Last Price" (JStr ("$" ++ last_text ++ "")) None;
            trend_metric trend] ++ rest)%list)
    /\ Forall (fun e => is_trend_metric e = false) rest.
Proof.
  intros Hbtn Hid Hg Hin Hlast Hlast' Htrend.
  unfold price_projection. run. rewrite Hbtn. cbv zeta. rewrite Hid. run.
  rewrite !http_calls_app. cbn [http_calls]. rewrite !app_nil_r.
  fold (projection_request ui id). rewrite Hg, on_result_ok by exact Hin.
  unfold metric_fixed at 1. rewrite Hlast. run. rewrite Hlast'. run.
  rewrite Htrend. run. cbn [py_capitalize is_str]. run.
  rewrite (String.eqb_sym "bullish" trend). fold (trend_metric trend).
  match goal with
  | |- exists outcome rest, ?m b ?t0 = _ /\ _ =>
      assert (Hrest : trace_sat (fun e => is_trend_metric e = false) m)
  end.
  { unfold metric_fixed. repeat (trace_step; try reflexivity). }
  match goal with
  | |- exists outcome rest, ?m b ?t0 = _ /\ _ =>
      destruct (Hrest b t0) as (rest & Hsnd & Hall);
      exists (fst (m b t0)), rest; split; [ | exact Hall];
      rewrite (surjective_pairing (m b t0)), Hsnd
  end.
  cbn [fst snd]. rewrite <- !app_assoc. reflexivity.
Qed.



(** X16: the analytics of the Projections screen are only requested on a
    press: with none of the three buttons pressed the screen fetches the
    stock list and nothing else. *)
Theorem projections_idle_calls (ui : pj_state) :
  pj_proj_btn ui = false -> pj_ma_btn ui = false -> pj_vol_btn ui = false ->
  calls_sat (fun r => r = stocks_request) (show_projections ui).
Proof.
  intros Hp Hm Hv.
  unfold show_projections, price_projection, moving_average, volatility_analysis,
    select_stock, st_selectbox.
  rewrite Hp, Hm, Hv. calls_of_handler.
Qed.
End Projections.

Lemma projections_idle_calls_witness :
  exists new,
    http_calls (snd (show_projections (rt := example_runtime) idle_pj
                       (serve (example_routes (ok_response apple_stats))) []))
    = ([] ++ new)%list
    /\ Forall (fun r => r = stocks_request) new.
Proof.
  exact (@projections_idle_calls example_runtime idle_pj eq_refl eq_refl eq_refl
           (serve (example_routes (ok_response apple_stats))) []).
Defined.

Lemma trend_glyph_witness :
  exists outcome rest,
    price_projection (rt := example_runtime) projection_pressed apple
                     (serve projection_routes) []
    = (outcome,
       ([] ++ [StSubheader "Price Projection";
               StWidget "slider" "Days to Project";
               StWidget "slider" "Historical Days for Trend";
               StWidget "button" "Calculate Projection";
               Http (projection_request (rt := example_runtime) projection_pressed (JInt 1));
               StMetric "Last Price" (JStr ("$" ++ "183.00" ++ "")) None;
               trend_metric (rt := example_runtime) "bearish"] ++ rest)%list)
    /\ Forall (fun e => is_trend_metric e = false) rest.
Proof.
  exact (@trend_glyph example_runtime projection_pressed apple (JInt 1) _ (JInt 183)
           "183.00" "bearish" (serve projection_routes) []
           eq_refl eq_refl eq_refl eq_refl eq_refl eq_refl eq_refl).
Defined.


(** ** The calls of the whole application *)

Section AllCalls.
Context {rt : PyRuntime}.

Ltac shape :=
  first
    [ right; reflexivity
    | left; split;
      [ eexists; reflexivity
      | first [ left; split; reflexivity
              | right; left; split; reflexivity
              | right; right; repeat split; reflexivity ] ] ].

Ltac calls_in_shape :=
  repeat first
    [ apply sat_for_each; intro
    | apply sat_bind_widget
    | apply sat_bind_ret
    | apply sat_fetch_api; intros ? [= <-]; shape
    | apply sat_requests_call; shape
    | apply on_result_sat
    | calls_step ].

(** X17: the calls of a render, whatever the page and the widgets.
    Every call is either the health probe or a call under the versioned
    base URL that is a GET without body, a POST without query parameters
    or a DELETE with neither: the application never sends a PUT. *)
Theorem main_calls_shape (ui : ui_state) :
  calls_sat (fun r => gateway_shape r \/ r = health_request) (main ui).
Proof.
  unfold main, show_dashboard, show_stock_management, quick_add, manual_add, view_stocks,
    fetch_prices, show_price_history, show_projections, price_projection, moving_average,
    volatility_analysis, show_settings, select_stock, st_selectbox, st_radio, metric_fixed.
  calls_in_shape.
Qed.

(** X18: the Dashboard reads and never writes: whatever the backend
    answers, the one call it makes is the GET of the stock list. *)
Theorem dashboard_calls (b : backend) (t : list event) :
  http_calls (snd (show_dashboard b t)) = (http_calls t ++ [stocks_request])%list.
Proof.
  unfold show_dashboard. run. cbn [snd].
  match goal with
  | |- http_calls (snd (?m b ?t')) = _ =>
      assert (Hq : quiet m)
  end.
  { calls_in_shape. }
  rewrite (quiet_calls _ _ Hq).
  repeat (rewrite http_calls_app; cbn [http_calls]). rewrite !app_nil_r. reflexivity.
Qed.
End AllCalls.

(** ** The series that are not sorted *)

Lemma map_combine_fst {A B C} (f : A -> C) (l : list A) (l' : list B) :
  List.length l' = List.length l ->
  map (fun p => f (fst p)) (combine l l') = map f l.
Proof.
  revert l'. induction l as [ | a l IH]; intros [ | b l']; simpl; try discriminate;
    [reflexivity | ].
  intros [= Hlen]. f_equal. apply IH, Hlen.
Qed.

Lemma map_combine_snd {A B C} (f : B -> C) (l : list A) (l' : list B) :
  List.length l' = List.length l ->
  map (fun p => f (snd p)) (combine l l') = map f l'.
Proof.
  revert l'. induction l as [ | a l IH]; intros [ | b l']; simpl; try discriminate;
    [reflexivity | ].
  intros [= Hlen]. f_equal. apply IH, Hlen.
Qed.

Section Unsorted.
Context {rt : PyRuntime}.

(** X19: the moving-average rows and the projected rows are charted in
    the order the backend sent them.  The frame they are read from has
    one row per record, in the order of the records: its [date] column
    is the parsed dates and every other column holds, position by
    position, what the frame stores of the records' values in that
    column; no sort is applied. *)
Theorem parse_dates_keeps_order
    (records : list (list (string * json))) (df : dataframe) :
  parse_dates (JList (map JDict records)) = Ret df ->
  (exists parsed,
      to_datetime (stored_column "date" records) = Ret parsed
      /\ column "date" df = Ret (map Date parsed))
  /\ (forall k, k <> "date" -> existsb (has_key k) records = true ->
                column k df = Ret (stored_column k records)).
Proof.
  unfold parse_dates, DataFrame. rewrite as_records_dicts. cbn [rbind].
  set (cols := record_columns records).
  destruct (column "date" _) as [dates | e] eqn:Ecol; cbn [rbind]; [ | discriminate].
  assert (Hdate : existsb (String.eqb "date") cols = true).
  { unfold column in Ecol. cbn [columns] in Ecol.
    destruct (existsb (String.eqb "date") cols); [reflexivity | discriminate]. }
  assert (Hdates : dates = stored_column "date" records).
  { unfold column in Ecol. cbn [columns rows] in Ecol. rewrite Hdate in Ecol.
    injection Ecol as <-. rewrite map_map. apply map_ext. intros r.
    apply record_row_cell. exact Hdate. }
  subst dates.
  destruct (to_datetime (stored_column "date" records)) as [parsed | e]; cbn [rbind];
    [ | discriminate].
  unfold set_column. cbn [rows columns].
  destruct (List.length (map Date parsed)
            =? List.length (map (record_row records cols) records))%nat
    eqn:Elen; [ | discriminate].
  apply Nat.eqb_eq in Elen. intros [= <-]. split.
  - exists parsed. split; [reflexivity | ].
    unfold column. cbn [columns rows].
    rewrite existsb_add_column, String.eqb_refl, orb_true_r. f_equal.
    rewrite map_map.
    rewrite (map_ext _ (fun p => snd p)).
    + rewrite (map_combine_snd (fun c => c)) by exact Elen. apply map_id.
    + intros [r v]. unfold row_cell. cbn [fst snd].
      rewrite lookup_dict_set, String.eqb_refl. reflexivity.
  - intros k Hk Hhas. unfold column. cbn [columns rows].
    rewrite existsb_add_column. unfold cols at 1. rewrite record_columns_has, Hhas.
    cbn [orb]. f_equal. rewrite map_map.
    rewrite (map_ext _ (fun p => row_cell k (fst p))).
    + rewrite (map_combine_fst (row_cell k)) by exact Elen.
      rewrite map_map. apply map_ext. intros r. apply record_row_cell.
      unfold cols. rewrite record_columns_has. exact Hhas.
    + intros [r v]. unfold row_cell. cbn [fst snd].
      rewrite lookup_dict_set. apply String.eqb_neq in Hk. rewrite Hk. reflexivity.
Qed.
End Unsorted.

Lemma parse_dates_keeps_order_witness :
  exists df,
    parse_dates (rt := example_runtime) apple_prices = Ret df
    /\ column "close_price" df = Ret [Val (JInt 183); Val (JInt 186); Val (JInt 184)].
Proof.
  eexists. split; [vm_compute; reflexivity | ].
  apply (proj2 (@parse_dates_keeps_order example_runtime
           [[("date", JStr "2024-01-04"); ("open_price", JInt 182); ("high_price", JInt 184);
             ("low_price", JInt 181); ("close_price", JInt 183); ("volume", JInt 900)];
            [("date", JStr "2024-01-02"); ("open_price", JInt 187); ("high_price", JInt 189);
             ("low_price", JInt 184); ("close_price", JInt 186); ("volume", JInt 1200)];
            [("date", JStr "2024-01-03"); ("open_price", JInt 184); ("high_price", JInt 186);
             ("low_price", JInt 183); ("close_price", JInt 184); ("volume", JInt 1000)]]
           _ eq_refl) "close_price").
  - discriminate.
  - reflexivity.
Defined.

(** ** What is charted in date order *)

Lemma StronglySorted_map {A B} (f : A -> B) (R : B -> B -> Prop) (l : list A) :
  StronglySorted (fun a a' => R (f a) (f a')) l -> StronglySorted R (map f l).
Proof.
  induction 1 as [ | a l Hs IH Ha]; simpl; constructor; [exact IH | ].
  apply Forall_map. exact Ha.
Qed.

Lemma ts_assoc {A B C} P (m : H A) (f : A -> H B) (g : B -> H C) :
  trace_sat P (bind m (fun a => bind (f a) g)) -> trace_sat P (bind (bind m f) g).
Proof. intros Hm b t. rewrite run_assoc. apply Hm. Qed.

Lemma ts_if_bind {A B} P (c : bool) (m1 m2 : H A) (k : A -> H B) :
  trace_sat P (if c then bind m1 k else bind m2 k) ->
  trace_sat P (bind (if c then m1 else m2) k).
Proof. destruct c; auto. Qed.

Lemma ts_bind_ret {A B} P (a : A) (k : A -> H B) :
  trace_sat P (k a) -> trace_sat P (bind (ret a) k).
Proof. intros Hk b t. apply Hk. Qed.

(** As [trace_step], keeping the value of what is bound. *)
Ltac trace_step_val :=
  lazymatch goal with
  | |- trace_sat _ (bind (ret _) _) => apply ts_bind_ret
  | |- trace_sat _ (bind (if _ then _ else _) _) => apply ts_if_bind
  | |- trace_sat _ (bind (widget _ _ _) _) => apply ts_bind_widget
  | |- trace_sat _ (bind (lift _) _) => apply ts_bind_lift; intros ? ?
  | |- trace_sat _ (bind (bind _ _) _) => apply ts_assoc
  | |- _ => trace_step
  end.

Section DateOrder.
Context {rt : PyRuntime}.

Lemma pipeline_rows_sorted (data : json) (df : dataframe) :
  chart_data_pipeline data = Ret df -> sorted_by "date" (rows df).
Proof.
  unfold chart_data_pipeline.
  destruct (DataFrame data) as [df0 | e]; cbn [rbind]; [ | discriminate].
  destruct (column "date" df0) as [dates | e]; cbn [rbind]; [ | discriminate].
  destruct (to_datetime dates) as [parsed | e]; cbn [rbind]; [ | discriminate].
  destruct (set_column "date" (map Date parsed) df0) as [df1 | e]; cbn [rbind];
    [ | discriminate].
  intros Hsort. destruct (sort_values_rows _ _ Hsort) as [_ ->].
  apply sorted_rows_sorted.
Qed.

Lemma date_column_sorted (data : json) (df : dataframe) (x : list cell) :
  chart_data_pipeline data = Ret df ->
  column "date" df = Ret x \/ px_column df "date" = Ret x ->
  cells_sorted x.
Proof.
  intros Hpipe Hx. apply pipeline_rows_sorted in Hpipe.
  assert (Hmap : x = map (row_cell "date") (rows df)).
  { unfold column, px_column in Hx.
    destruct (existsb (String.eqb "date") (columns df));
      destruct Hx as [Hx | Hx]; congruence. }
  subst x. unfold cells_sorted. rewrite map_map.
  apply (StronglySorted_map (row_time "date")). exact Hpipe.
Qed.

Ltac in_date_order :=
  lazymatch goal with
  | |- trace_sat _ _ => idtac
  | |- _ =>
      cbn [drawn_in_date_order update_layout fig_data]; try exact I;
      try (eapply pipeline_rows_sorted; eassumption);
      try (repeat constructor; eapply date_column_sorted; [eassumption | auto])
  end.

(** X20: Price History draws everything from the one sorted frame.  The
    x series of the price chart (candlestick or line) and of the volume
    chart are in non-decreasing date order, and so are the rows of the
    raw-data table, whatever order the backend sent the rows in. *)
Theorem price_history_drawn_in_date_order (ui : ph_state) :
  trace_sat drawn_in_date_order (show_price_history ui).
Proof.
  unfold show_price_history, select_stock, st_selectbox, st_radio, metric_fixed.
  repeat (trace_step_val; in_date_order).
Qed.

Ltac projection_event :=
  lazymatch goal with
  | |- trace_sat _ _ => idtac
  | |- _ => cbn [projection_chart update_layout add_trace fig_data app]; try exact I
  end.

(** X21: the chart of the projection tab.  Whatever it draws as chart
    carries the projected series as its last series, alone or after one
    historical series, and a historical series is in non-decreasing date
    order. *)
Theorem projection_chart_series (ui : pj_state) (stock : json) :
  trace_sat projection_chart (price_projection ui stock).
Proof.
  unfold price_projection, metric_fixed.
  repeat (trace_step_val; projection_event).
  - do 2 eexists. right. do 2 eexists. split; [reflexivity | ].
    eapply date_column_sorted; [eassumption | auto].
  - do 2 eexists. left. reflexivity.
Qed.
End DateOrder.

(** A run of the projection tab on a falling trend: the metric shows the
    falling chart, and the chart has the history before the projection. *)
Example projection_tab_run :
  let t := snd (show_projections (rt := example_runtime) projection_pressed
                                 (serve projection_routes) []) in
  In (trend_metric (rt := example_runtime) "bearish") t
  /\ map (fun e => match e with
                   | StPlotlyChart fig =>
                       map (fun tr => match tr with
                                      | Scatter _ _ _ name _ => name
                                      | _ => ""
                                      end) (fig_data fig)
                   | _ => []
                   end) (filter is_chart t)
     = [["Historical"; "Projected"]]
  /\ http_calls t
     = [stocks_request;
        projection_request (rt := example_runtime) projection_pressed (JInt 1);
        history_request (rt := example_runtime) projection_pressed (JInt 1)].
Proof.
  vm_compute. split; [ | split; reflexivity].
  do 10 right. left. reflexivity.
Qed.

(** ** A body with the key "error" *)

Section ErrorKey.
Context {rt : PyRuntime}.

(** X22: the error test looks at the body, not at the status.  A
    response with status 200 or 201 whose body is an object with the key
    [error] ends Price History like a failed fetch, with the value of the
    key shown; and a body that is a list holding the string "error" makes
    the handler raise [TypeError] right after the fetch. *)
Theorem success_body_with_error_key
    (ui : ph_state) (b : backend) (resp : response) :
  b 0 stocks_request = Ret resp ->
  ((status_code resp =? 200) || (status_code resp =? 201))%Z = true ->
  (forall d msg,
      response_json resp = Ret (JDict d) -> lookup "error" d = Some msg ->
      show_price_history ui b [] =
      (Done tt, [StHeader "Price History"; Http stocks_request; StError msg]))
  /\ (forall l,
         response_json resp = Ret (JList l) -> existsb (is_str "error") l = true ->
         show_price_history ui b [] =
         (Failed (type_error "list indices must be integers or slices, not str"),
          [StHeader "Price History"; Http stocks_request])).
Proof.
  intros Hb Hst.
  assert (Hg : gateway_result (b 0 stocks_request) =
               match response_json resp with Ret body => body | Raise e => exception_value e end).
  { rewrite Hb. unfold gateway_result, status_policy. cbn [rbind]. rewrite Hst.
    destruct (response_json resp); reflexivity. }
  split.
  - intros d msg Hbody Herr. unfold show_price_history. unfold bind at 1, emit at 1.
    erewrite bind_done by (apply fetch_stocks_run; reflexivity).
    rewrite Hg, Hbody.
    unfold on_result, bind, lift, emit. cbn [py_in py_getitem]. unfold has_key.
    rewrite Herr. reflexivity.
  - intros l Hbody Herr. unfold show_price_history. unfold bind at 1, emit at 1.
    erewrite bind_done by (apply fetch_stocks_run; reflexivity).
    rewrite Hg, Hbody.
    unfold on_result, bind, lift, emit. cbn [py_in py_getitem]. rewrite Herr. reflexivity.
Qed.
End ErrorKey.

Lemma success_body_with_error_key_witness :
  show_price_history (rt := example_runtime) idle_ph
    (answer_with (mkResponse 200 (Ret (JDict [("error", JStr "maintenance"); ("code", JInt 7)]))))
    []
  = (Done tt, [StHeader "Price History"; Http stocks_request; StError (JStr "maintenance")]).
Proof.
  exact (proj1 (@success_body_with_error_key example_runtime idle_ph
                  (answer_with (mkResponse 200 (Ret (JDict [("error", JStr "maintenance");
                                                            ("code", JInt 7)]))))
                  _ eq_refl eq_refl)
               [("error", JStr "maintenance"); ("code", JInt 7)] (JStr "maintenance")
               eq_refl eq_refl).
Defined.

(** ** Stock Management with nothing pressed *)

Section StockManagementIdle.
Context {rt : PyRuntime}.

(** X23: Stock Management only writes on a press.  With no button
    pressed (neither of the two add buttons, no delete button, not the
    fetch button) every call of the screen is the GET of the stock
    list. *)
Theorem stock_management_idle_calls (ui : sm_state) :
  sm_fetch_add ui = false -> sm_add_stock ui = false ->
  (forall key, sm_delete ui key = false) -> sm_fetch_prices ui = false ->
  calls_sat (fun r => r = stocks_request) (show_stock_management ui).
Proof.
  intros Hq Hm Hd Hf.
  unfold show_stock_management, quick_add, manual_add, view_stocks, fetch_prices,
    st_selectbox.
  rewrite Hq, Hm, Hf.
  repeat first
    [ apply sat_for_each; intro
    | apply sat_bind_widget
    | apply sat_bind_ret
    | rewrite Hd
    | apply sat_fetch_api; intros ? [= <-]; reflexivity
    | apply on_result_sat
    | calls_step ].
Qed.
End StockManagementIdle.

Lemma stock_management_idle_calls_witness :
  exists new,
    http_calls (snd (show_stock_management (rt := example_runtime) idle_sm
                       (serve (example_routes (ok_response apple_stats))) []))
    = ([] ++ new)%list
    /\ Forall (fun r => r = stocks_request) new.
Proof.
  exact (@stock_management_idle_calls example_runtime idle_sm eq_refl eq_refl
           (fun _ => eq_refl) eq_refl
           (serve (example_routes (ok_response apple_stats))) []).
Defined.
